(** * huawei_utils: naming, metadata lookup and polling helpers

    A shallow embedding of [Cinder/Ocata/huawei_utils.py] and the properties
    of its name encoders, its id resolution chains, its metadata extraction
    and its blocking poll helper.

    Conventions of the embedding:
    - a Python text string is a [string] whose characters are the code points
      0..255; [len] is [String.length];
    - a Python integer is a [Z];
    - a dict with string keys is a [gmap string _];
    - a function that may raise returns a [result];
    - calls to the array client are recorded in a trace. *)

From Stdlib Require Import ZArith String Ascii List Lia QArith Qround Lqa DecimalString.
From stdpp Require Import base gmap strings list.

#[local] Set Warnings "-register-all".

Local Open Scope string_scope.
Local Open Scope Z_scope.

(** ** MD5 (RFC 1321), as computed by [hashlib.md5(..).hexdigest()] *)

Module MD5.

Definition add32 (x y : Z) : Z := (x + y) mod 2 ^ 32.

Definition rotl32 (x c : Z) : Z :=
  Z.lor (Z.shiftl x c mod 2 ^ 32) (Z.shiftr x (32 - c)).

Definition not32 (x : Z) : Z := Z.lxor x 0xffffffff.

Definition F (b c d : Z) : Z := Z.lor (Z.land b c) (Z.land (not32 b) d).
Definition G (b c d : Z) : Z := Z.lor (Z.land b d) (Z.land c (not32 d)).
Definition H (b c d : Z) : Z := Z.lxor (Z.lxor b c) d.
Definition I (b c d : Z) : Z := Z.lxor c (Z.lor b (not32 d)).

(** Per-round left rotations. *)
Definition S : list Z :=
  [ 7; 12; 17; 22; 7; 12; 17; 22; 7; 12; 17; 22; 7; 12; 17; 22;
    5; 9; 14; 20; 5; 9; 14; 20; 5; 9; 14; 20; 5; 9; 14; 20;
    4; 11; 16; 23; 4; 11; 16; 23; 4; 11; 16; 23; 4; 11; 16; 23;
    6; 10; 15; 21; 6; 10; 15; 21; 6; 10; 15; 21; 6; 10; 15; 21 ].

(** [K[i] = floor(2^32 * abs(sin(i + 1)))]. *)
Definition K : list Z :=
  [ 0xd76aa478; 0xe8c7b756; 0x242070db; 0xc1bdceee; 0xf57c0faf; 0x4787c62a; 0xa8304613; 0xfd469501;
    0x698098d8; 0x8b44f7af; 0xffff5bb1; 0x895cd7be; 0x6b901122; 0xfd987193; 0xa679438e; 0x49b40821;
    0xf61e2562; 0xc040b340; 0x265e5a51; 0xe9b6c7aa; 0xd62f105d; 0x02441453; 0xd8a1e681; 0xe7d3fbc8;
    0x21e1cde6; 0xc33707d6; 0xf4d50d87; 0x455a14ed; 0xa9e3e905; 0xfcefa3f8; 0x676f02d9; 0x8d2a4c8a;
    0xfffa3942; 0x8771f681; 0x6d9d6122; 0xfde5380c; 0xa4beea44; 0x4bdecfa9; 0xf6bb4b60; 0xbebfbc70;
    0x289b7ec6; 0xeaa127fa; 0xd4ef3085; 0x04881d05; 0xd9d4d039; 0xe6db99e5; 0x1fa27cf8; 0xc4ac5665;
    0xf4292244; 0x432aff97; 0xab9423a7; 0xfc93a039; 0x655b59c3; 0x8f0ccc92; 0xffeff47d; 0x85845dd1;
    0x6fa87e4f; 0xfe2ce6e0; 0xa3014314; 0x4e0811a1; 0xf7537e82; 0xbd3af235; 0x2ad7d2bb; 0xeb86d391 ].

(** The four chaining words A, B, C, D. *)
Record state := State { sA : Z; sB : Z; sC : Z; sD : Z }.

Definition init : state :=
  State 0x67452301 0xefcdab89 0x98badcfe 0x10325476.

(** Little-endian 32-bit word from four bytes. *)
Definition word_of_bytes (bs : list Z) : Z :=
  match bs with
  | [b0; b1; b2; b3] => b0 + 256 * (b1 + 256 * (b2 + 256 * b3))
  | _ => 0
  end.

Fixpoint words_of_bytes (n : nat) (bs : list Z) : list Z :=
  match n with
  | O => []
  | Datatypes.S n' => word_of_bytes (firstn 4 bs) :: words_of_bytes n' (skipn 4 bs)
  end.

Definition bytes_of_word (w : Z) : list Z :=
  [ w mod 256; (w / 256) mod 256; (w / 65536) mod 256; (w / 16777216) mod 256 ].

(** One of the 64 operations on the 16 message words [M]. *)
Definition round (M : list Z) (st : state) (i : nat) : state :=
  let '(State a b c d) := st in
  let iz := Z.of_nat i in
  let '(f, g) :=
    if iz <? 16 then (F b c d, iz)
    else if iz <? 32 then (G b c d, (5 * iz + 1) mod 16)
    else if iz <? 48 then (H b c d, (3 * iz + 5) mod 16)
    else (I b c d, (7 * iz) mod 16) in
  let f' := add32 (add32 (add32 f a) (nth i K 0)) (nth (Z.to_nat g) M 0) in
  State d (add32 b (rotl32 f' (nth i S 0))) b c.

(** Compression of one 64-byte block. *)
Definition compress (st : state) (block : list Z) : state :=
  let M := words_of_bytes 16 block in
  let st' := fold_left (round M) (seq 0 64) st in
  State (add32 (sA st) (sA st')) (add32 (sB st) (sB st'))
        (add32 (sC st) (sC st')) (add32 (sD st) (sD st')).

Fixpoint process (blocks : nat) (bs : list Z) (st : state) : state :=
  match blocks with
  | O => st
  | Datatypes.S n => process n (skipn 64 bs) (compress st (firstn 64 bs))
  end.

(** The length in bits as eight little-endian bytes. *)
Fixpoint length_bytes (n : nat) (bits : Z) : list Z :=
  match n with
  | O => []
  | Datatypes.S n' => bits mod 256 :: length_bytes n' (bits / 256)
  end.

Definition pad (msg : list Z) : list Z :=
  let len := Z.of_nat (length msg) in
  let zeros := Z.to_nat ((55 - len) mod 64) in
  msg ++ [128] ++ repeat 0 zeros ++ length_bytes 8 ((8 * len) mod 2 ^ 64).

Definition digest (msg : list Z) : list Z :=
  let padded := pad msg in
  let st := process (length padded / 64) padded init in
  bytes_of_word (sA st) ++ bytes_of_word (sB st) ++
  bytes_of_word (sC st) ++ bytes_of_word (sD st).

Definition hex_digit (n : Z) : ascii :=
  nth (Z.to_nat n)
      (list_ascii_of_string "0123456789abcdef") "0"%char.

Fixpoint hex_of_bytes (bs : list Z) : string :=
  match bs with
  | [] => EmptyString
  | b :: rest =>
      String (hex_digit (b / 16)) (String (hex_digit (b mod 16)) (hex_of_bytes rest))
  end.

Definition hexdigest (msg : list Z) : string := hex_of_bytes (digest msg).

End MD5.

(** [s.encode('utf-8')] for a string of code points below 256. *)
Fixpoint utf8_encode (s : string) : list Z :=
  match s with
  | EmptyString => []
  | String c rest =>
      let n := Z.of_N (N_of_ascii c) in
      if n <? 128 then n :: utf8_encode rest
      else (192 + n / 64) :: (128 + n mod 64) :: utf8_encode rest
  end.

(** [hashlib.md5(s.encode('utf-8')).hexdigest()] *)
Definition md5_hexdigest (s : string) : string := MD5.hexdigest (utf8_encode s).

(** ** Python values, exceptions and results *)

(** The values that reach these helpers: [None], booleans, integers, text,
    lists and dicts with string keys (what [json.loads] produces, floats
    apart, which the driver never stores). *)
Inductive pyval :=
  | VNone
  | VBool (b : bool)
  | VInt (n : Z)
  | VStr (s : string)
  | VList (l : list pyval)
  | VDict (d : gmap string pyval).

(** Truth value of an object, as tested by [if x] and [not x]. *)
Definition truthy (v : pyval) : bool :=
  match v with
  | VNone => false
  | VBool b => b
  | VInt n => negb (n =? 0)
  | VStr s => negb (String.eqb s EmptyString)
  | VList l => match l with [] => false | _ :: _ => true end
  | VDict d => negb (bool_decide (size d = 0%nat))
  end.

(** Instances of [Exception]. [PyError] stands for an exception raised by a
    collaborator (the array client, the polled function, [json]), named by
    its class and message. [VolumeBackendAPIException] carries its [data]
    argument, an exception or a message. *)
Inductive exn :=
  | PyError (cls msg : string)
  | KeyError (key : string)
  | VolumeBackendAPIException (data : exn_data)
with exn_data :=
  | DataException (ex : exn)
  | DataMessage (msg : string).

Inductive result (A : Type) :=
  | Ok (a : A)
  | Raise (e : exn).
Arguments Ok {A} a.
Arguments Raise {A} e.

(** [str(n)] for an integer. *)
Definition text_of_int (n : Z) : string := NilZero.string_of_int (Z.to_int n).

(** [d.get(key)] on a dict of values. *)
Definition dict_get (d : gmap string pyval) (key : string) : pyval :=
  default VNone (d !! key).

(** [d.get(key)] on a dict of strings, as a value. *)
Definition str_dict_get (d : gmap string string) (key : string) : pyval :=
  match d !! key with
  | Some s => VStr s
  | None => VNone
  end.

(** [{item['key']: item['value'] for item in rows}]: a later row with the
    same key overwrites an earlier one. *)
Definition dict_of_rows (rows : list (string * string)) : gmap string string :=
  fold_left (fun d item => <[item.1 := item.2]> d) rows ∅.

(** ** External configuration and interpreter services *)

(** The module [constants] of the driver, which this file imports. *)
Class Constants := {
  MAX_NAME_LENGTH : Z;
  AVAILABLE_FEATURE_STATUS : list Z;
  SUPPORT_CLONE_PAIR_VERSION : string;
}.

(** What the functions take from the interpreter and its libraries:
    the built-in [hash] on text, [json.loads], and the text form of a list
    (its [repr], which differs between interpreter versions). *)
Class Runtime := {
  py_hash : string -> Z;
  json_loads : string -> result pyval;
  py_repr : pyval -> string;
}.

(** [six.text_type(v)] *)
Definition text_type `{Runtime} (v : pyval) : string :=
  match v with
  | VNone => "None"
  | VBool true => "True"
  | VBool false => "False"
  | VInt n => text_of_int n
  | VStr s => s
  | VList _ | VDict _ => py_repr v
  end.

(** ** String helpers *)

(** [s.split('-')[0]]: the text before the first ['-'], all of [s] when
    there is none. *)
Fixpoint split_head (s : string) : string :=
  match s with
  | EmptyString => EmptyString
  | String c rest =>
      if Ascii.eqb c "-" then EmptyString else String c (split_head rest)
  end.

(** [s[:stop]], with Python's reading of a negative or too large [stop]. *)
Definition slice_to (s : string) (stop : Z) : string :=
  let n := Z.of_nat (String.length s) in
  let stop' := if stop <? 0 then Z.max 0 (n + stop) else Z.min stop n in
  substring 0 (Z.to_nat stop') s.

(** [s.startswith('-')] *)
Definition startswith_dash (s : string) : bool :=
  match s with
  | String c _ => Ascii.eqb c "-"
  | EmptyString => false
  end.

(** ** Name encoders *)

Section Encoders.
Context `{Constants} `{Runtime}.

Definition encode_name (id : string) : string :=
  let encoded_name := md5_hexdigest id in
  let prefix := split_head id +:+ "-" in
  let postfix :=
    slice_to encoded_name (MAX_NAME_LENGTH - Z.of_nat (String.length prefix)) in
  prefix +:+ postfix.

Definition old_encode_name (id : string) : string :=
  let pre_name := split_head id in
  let vol_encoded := text_of_int (py_hash id) in
  if startswith_dash vol_encoded
  then pre_name +:+ vol_encoded
  else pre_name +:+ "-" +:+ vol_encoded.

Definition encode_host_name (name : string) : string :=
  if negb (String.eqb name EmptyString) && (MAX_NAME_LENGTH <? Z.of_nat (String.length name))
  then
    let encoded_name := md5_hexdigest name in
    slice_to encoded_name MAX_NAME_LENGTH
  else name.

Definition old_encode_host_name (name : string) : string :=
  if negb (String.eqb name EmptyString) && (MAX_NAME_LENGTH <? Z.of_nat (String.length name))
  then text_of_int (py_hash name)
  else name.

End Encoders.

(** ** Service objects *)

(** A volume as these helpers see it: either an [objects.Volume] or a row
    object of the database layer, which answers [get], [in] and attribute
    access. Metadata values are text. *)
Record Volume := {
  volume_is_object : bool;
      (* isinstance(volume, objects.Volume) *)
  volume_id : string;
  volume_provider_location : option string;
      (* None when the field is unset *)
  volume_metadata : gmap string string;
      (* volume.metadata *)
  volume_volume_metadata : option (list (string * string));
      (* volume.get('volume_metadata'), rows of key and value *)
  volume_admin_metadata : option (gmap string string);
      (* Some when 'admin_metadata' in volume *)
  volume_volume_admin_metadata : option (list (string * string));
      (* Some when 'volume_admin_metadata' in volume *)
}.

Record Snapshot := {
  snapshot_is_object : bool;
      (* type(snapshot) is objects.Snapshot *)
  snapshot_id : string;
  snapshot_provider_location : option string;
  snapshot_metadata : gmap string string;
      (* snapshot.metadata *)
  snapshot_snapshot_metadata : option (list (string * string));
      (* Some when 'snapshot_metadata' in snapshot *)
}.

(** ** Metadata extraction *)

Definition get_volume_metadata (volume : Volume) : gmap string string :=
  if volume_is_object volume then volume_metadata volume
  else
    match volume_volume_metadata volume with
    | Some (item :: items) => dict_of_rows (item :: items)
    | Some [] | None => ∅
    end.

Definition get_admin_metadata (volume : Volume) : gmap string string :=
  match volume_admin_metadata volume with
  | Some admin_metadata => admin_metadata
  | None =>
      match volume_volume_admin_metadata volume with
      | Some metadata => dict_of_rows metadata
      | None => ∅
      end
  end.

Definition get_snapshot_metadata_value (snapshot : Snapshot) : gmap string string :=
  if snapshot_is_object snapshot then snapshot_metadata snapshot
  else
    match snapshot_snapshot_metadata snapshot with
    | Some metadata => dict_of_rows metadata
    | None => ∅
    end.

Section Metadata.
Context `{Runtime}.

Definition get_lun_metadata (volume : Volume) : result (gmap string pyval) :=
  match volume_provider_location volume with
  | None | Some EmptyString => Ok ∅
  | Some provider_location =>
      match json_loads provider_location with
      | Raise e => Raise e
      | Ok (VDict info) => Ok info
      | Ok info =>
          (* To keep compatible with old driver version *)
          let admin_metadata := get_admin_metadata volume in
          let metadata := get_volume_metadata volume in
          Ok (<["huawei_lun_id" := VStr (text_type info)]>
               (<["huawei_lun_wwn" := str_dict_get admin_metadata "huawei_lun_wwn"]>
                 (<["huawei_sn" := str_dict_get metadata "huawei_sn"]>
                   (<["hypermetro" :=
                        VBool (truthy (str_dict_get metadata "hypermetro_id"))]> ∅))))
      end
  end.

Definition get_snapshot_metadata (snapshot : Snapshot) : result (gmap string pyval) :=
  match snapshot_provider_location snapshot with
  | None | Some EmptyString => Ok ∅
  | Some provider_location =>
      match json_loads provider_location with
      | Raise e => Raise e
      | Ok (VDict info) => Ok info
      | Ok info =>
          (* To keep compatible with old driver version *)
          let metadata := get_snapshot_metadata_value snapshot in
          Ok (<["huawei_snapshot_id" := VStr (text_type info)]>
               (<["huawei_snapshot_wwn" :=
                    str_dict_get metadata "huawei_snapshot_wwn"]> ∅))
      end
  end.

End Metadata.

(** ** The array client *)

(** A request sent to the array. *)
Inductive call :=
  | GetLunIdByName (name : string)
  | GetSnapshotIdByName (name : string)
  | GetHostIdByName (name : string)
  | GetArrayInfo.

(** The client is a collaborator: each method answers from the requests made
    so far and its argument, with a value or an exception. *)
Record Client := {
  get_lun_id_by_name : list call -> string -> result pyval;
  get_snapshot_id_by_name : list call -> string -> result pyval;
  get_host_id_by_name : list call -> string -> result pyval;
  get_array_info : list call -> result (gmap string string);
}.

(** Computations that talk to the client: the requests made so far go in,
    the outcome and the extended list of requests come out. *)
Definition M (A : Type) : Type := list call -> result A * list call.

Definition ret {A} (a : A) : M A := fun tr => (Ok a, tr).

Definition raise {A} (e : exn) : M A := fun tr => (Raise e, tr).

Definition bind {A B} (m : M A) (k : A -> M B) : M B :=
  fun tr =>
    match m tr with
    | (Ok a, tr') => k a tr'
    | (Raise e, tr') => (Raise e, tr')
    end.

Definition lift {A} (r : result A) : M A := fun tr => (r, tr).

Notation "x <- m ;; k" := (bind m (fun x => k))
  (at level 100, m at next level, right associativity).

Definition request {A} (c : call) (answer : list call -> result A) : M A :=
  fun tr => (answer tr, (tr ++ [c])%list).

(** Run a computation from an empty list of requests. *)
Definition run {A} (m : M A) : result A * list call := m [].

(** ** Resolution chains *)

Section Resolution.
Context `{Constants} `{Runtime}.

Definition get_volume_lun_id (client : Client) (volume : Volume)
  : M (pyval * pyval) :=
  metadata <- lift (get_lun_metadata volume) ;;
  (* First try the new encoded way. *)
  let volume_name := encode_name (volume_id volume) in
  lun_id <- request (GetLunIdByName volume_name)
                    (fun tr => get_lun_id_by_name client tr volume_name) ;;
  (* If new encoded way not found, try the old encoded way. *)
  lun_id <- (if negb (truthy lun_id) then
               let volume_name := old_encode_name (volume_id volume) in
               request (GetLunIdByName volume_name)
                       (fun tr => get_lun_id_by_name client tr volume_name)
             else ret lun_id) ;;
  let lun_id :=
    if negb (truthy lun_id) then dict_get metadata "huawei_lun_id" else lun_id in
  ret (lun_id, dict_get metadata "huawei_lun_wwn").

Definition get_snapshot_id (client : Client) (snapshot : Snapshot)
  : M (pyval * pyval) :=
  metadata <- lift (get_snapshot_metadata snapshot) ;;
  let snapshot_id' := dict_get metadata "huawei_snapshot_id" in
  (* First try the new encoded way. *)
  snapshot_id' <- (if negb (truthy snapshot_id') then
                     let name := encode_name (snapshot_id snapshot) in
                     request (GetSnapshotIdByName name)
                             (fun tr => get_snapshot_id_by_name client tr name)
                   else ret snapshot_id') ;;
  (* If new encoded way not found, try the old encoded way. *)
  snapshot_id' <- (if negb (truthy snapshot_id') then
                     let name := old_encode_name (snapshot_id snapshot) in
                     request (GetSnapshotIdByName name)
                             (fun tr => get_snapshot_id_by_name client tr name)
                   else ret snapshot_id') ;;
  ret (snapshot_id', dict_get metadata "huawei_snapshot_wwn").

Definition get_host_id (client : Client) (host_name : string) : M pyval :=
  let encoded_name := encode_host_name host_name in
  host_id <- request (GetHostIdByName encoded_name)
                     (fun tr => get_host_id_by_name client tr encoded_name) ;;
  if String.eqb encoded_name host_name then ret host_id
  else
    host_id <- (if negb (truthy host_id) then
                  let encoded_name := old_encode_host_name host_name in
                  request (GetHostIdByName encoded_name)
                          (fun tr => get_host_id_by_name client tr encoded_name)
                else ret host_id) ;;
    ret host_id.

End Resolution.

(** ** Feature gates *)

(** [v == n] for an integer [n]: [True] and [False] compare as 1 and 0. *)
Definition py_eq_int (v : pyval) (n : Z) : bool :=
  match v with
  | VInt m => m =? n
  | VBool b => (if b then 1 else 0) =? n
  | _ => false
  end.

(** [v in codes] for a tuple of integers. *)
Definition py_in (v : pyval) (codes : list Z) : bool := existsb (py_eq_int v) codes.

Section Features.
Context `{Constants}.

Fixpoint check_feature_available (feature_status : gmap string pyval)
    (features : list string) : bool :=
  match features with
  | [] => false
  | f :: rest =>
      if py_in (dict_get feature_status f) AVAILABLE_FEATURE_STATUS then true
      else check_feature_available feature_status rest
  end.

(** The result is [True] or, when the test fails, the [None] of a function
    that ends without [return]. *)
Definition is_support_clone_pair (client : Client) : M pyval :=
  array_info <- request GetArrayInfo (get_array_info client) ;;
  version_info <- (match array_info !! "PRODUCTVERSION" with
                   | Some v => ret v
                   | None => raise (KeyError "PRODUCTVERSION")
                   end) ;;
  if String.leb SUPPORT_CLONE_PAIR_VERSION version_info then ret (VBool true)
  else ret VNone.

End Features.

(** ** Blocking poll helper *)

(** Clock readings of [time.time()] and the timeout are rationals (every
    float is one). [int(t)] drops the fraction. *)
Definition py_int (t : Q) : Z := Z.quot (Qnum t) (Z.pos (Qden t)).

(** One run of the polled function: what the call does, and the reading of
    the clock that follows it. *)
Record poll := Poll {
  poll_outcome : result pyval;
  poll_time : Q;
}.

(** How one run of [_inner] ends: it returns (the timer calls it again after
    [interval]), it raises [LoopingCallDone], or it raises an error. *)
Inductive inner_result :=
  | InnerReturn
  | LoopingCallDone
  | InnerRaise (e : exn).

(** [_('wait_for_condition: %s timed out.') % func.__name__] *)
Definition timed_out_msg (func_name : string) : string :=
  "wait_for_condition: " +:+ func_name +:+ " timed out.".

(** The test [int(time.time()) - start_time > timeout]. *)
Definition timeout_passed (start_time timeout now : Q) : bool :=
  negb (Qle_bool (inject_Z (py_int now) - start_time) timeout).

Definition _inner (func_name : string) (start_time timeout : Q) (p : poll)
  : inner_result :=
  match poll_outcome p with
  | Raise ex => InnerRaise (VolumeBackendAPIException (DataException ex))
  | Ok res =>
      if truthy res then LoopingCallDone
      else if timeout_passed start_time timeout (poll_time p) then
        InnerRaise (VolumeBackendAPIException (DataMessage (timed_out_msg func_name)))
      else InnerReturn
  end.

(** How the blocking call ends, with the number of runs of the polled
    function so far: it returns, it raises, or it is still blocked when the
    recorded polls are used up. *)
Inductive wait_result :=
  | Returned (runs : nat)
  | Raised (e : exn) (runs : nat)
  | Blocked (runs : nat).

(** [FixedIntervalLoopingCall(body).start(interval).wait()]: run [body]
    again and again until it raises; [LoopingCallDone] ends the wait
    normally, any other exception leaves through [wait()]. *)
Fixpoint looping_call (body : poll -> inner_result) (polls : list poll)
    (runs : nat) : wait_result :=
  match polls with
  | [] => Blocked runs
  | p :: rest =>
      match body p with
      | InnerReturn => looping_call body rest (Datatypes.S runs)
      | LoopingCallDone => Returned (Datatypes.S runs)
      | InnerRaise e => Raised e (Datatypes.S runs)
      end
  end.

(** [start_time] is the reading of the clock on entry; [polls] is what the
    successive runs of [func] do. [interval] only spaces the runs. *)
Definition wait_for_condition (func_name : string) (polls : list poll)
    (interval timeout : Q) (start_time : Q) : wait_result :=
  looping_call (_inner func_name start_time timeout) polls 0.

(** ** A concrete runtime, to run the functions *)

(** A decoder for the JSON texts found in [provider_location]: objects,
    arrays, text, integers, [true], [false] and [null]. A number with a
    fraction or an exponent, a [\u] escape and the non-standard literals
    are not covered and are reported as a decoding error. *)
Module Json.

Definition dquote : ascii := ascii_of_nat 34.
Definition backslash : ascii := ascii_of_nat 92.

Definition is_ws (c : ascii) : bool :=
  let n := nat_of_ascii c in
  (n =? 32)%nat || (n =? 9)%nat || (n =? 10)%nat || (n =? 13)%nat.

Fixpoint skip_ws (s : list ascii) : list ascii :=
  match s with
  | c :: rest => if is_ws c then skip_ws rest else s
  | [] => []
  end.

Definition digit_value (c : ascii) : option Z :=
  let n := Z.of_nat (nat_of_ascii c) in
  if (48 <=? n) && (n <=? 57) then Some (n - 48) else None.

(** The digits at the head of [s], read as a number after [acc]. *)
Fixpoint digits (acc : Z) (seen : nat) (s : list ascii) : Z * nat * list ascii :=
  match s with
  | c :: rest =>
      match digit_value c with
      | Some d => digits (10 * acc + d) (Datatypes.S seen) rest
      | None => (acc, seen, s)
      end
  | [] => (acc, seen, s)
  end.

Definition starts_fraction (s : list ascii) : bool :=
  match s with
  | c :: _ => Ascii.eqb c "." || Ascii.eqb c "e" || Ascii.eqb c "E"
  | [] => false
  end.

(** An integer literal without its sign: [0], or digits with no leading
    zero. *)
Definition natural (s : list ascii) : option (Z * list ascii) :=
  match s with
  | c :: rest =>
      if Ascii.eqb c "0" then
        if starts_fraction rest then None else Some (0, rest)
      else
        match digits 0 0 s with
        | (_, O, _) => None
        | (n, _, rest') => if starts_fraction rest' then None else Some (n, rest')
        end
  | [] => None
  end.

(** The text after an opening quote, up to the closing one. *)
Fixpoint text (s : list ascii) : option (string * list ascii) :=
  match s with
  | [] => None
  | c :: rest =>
      if Ascii.eqb c dquote then Some (EmptyString, rest)
      else if Ascii.eqb c backslash then
        match rest with
        | e :: rest' =>
            let unescaped :=
              if Ascii.eqb e dquote then Some e
              else if Ascii.eqb e backslash then Some e
              else if Ascii.eqb e "/" then Some e
              else if Ascii.eqb e "b" then Some (ascii_of_nat 8)
              else if Ascii.eqb e "f" then Some (ascii_of_nat 12)
              else if Ascii.eqb e "n" then Some (ascii_of_nat 10)
              else if Ascii.eqb e "r" then Some (ascii_of_nat 13)
              else if Ascii.eqb e "t" then Some (ascii_of_nat 9)
              else None in
            match unescaped, text rest' with
            | Some u, Some (str, rest'') => Some (String u str, rest'')
            | _, _ => None
            end
        | [] => None
        end
      else if (nat_of_ascii c <? 32)%nat then None
      else
        match text rest with
        | Some (str, rest') => Some (String c str, rest')
        | None => None
        end
  end.

Definition literal (word : string) (s : list ascii) : option (list ascii) :=
  let w := list_ascii_of_string word in
  if bool_decide (firstn (length w) s = w) then Some (skipn (length w) s) else None.

Fixpoint value (fuel : nat) (s : list ascii) : option (pyval * list ascii) :=
  match fuel with
  | O => None
  | Datatypes.S fuel' =>
      match s with
      | [] => None
      | c :: rest =>
          if Ascii.eqb c dquote then
            match text rest with
            | Some (str, rest') => Some (VStr str, rest')
            | None => None
            end
          else if Ascii.eqb c "[" then
            match skip_ws rest with
            | c' :: rest' =>
                if Ascii.eqb c' "]" then Some (VList [], rest')
                else
                  match elements fuel' (c' :: rest') with
                  | Some (l, rest'') => Some (VList l, rest'')
                  | None => None
                  end
            | [] => None
            end
          else if Ascii.eqb c "{" then
            match skip_ws rest with
            | c' :: rest' =>
                if Ascii.eqb c' "}" then Some (VDict ∅, rest')
                else
                  match members fuel' ∅ (c' :: rest') with
                  | Some (d, rest'') => Some (VDict d, rest'')
                  | None => None
                  end
            | [] => None
            end
          else if Ascii.eqb c "-" then
            match natural rest with
            | Some (n, rest') => Some (VInt (- n), rest')
            | None => None
            end
          else if Ascii.eqb c "t" then
            option_map (fun r => (VBool true, r)) (literal "true" s)
          else if Ascii.eqb c "f" then
            option_map (fun r => (VBool false, r)) (literal "false" s)
          else if Ascii.eqb c "n" then
            option_map (fun r => (VNone, r)) (literal "null" s)
          else
            match natural s with
            | Some (n, rest') => Some (VInt n, rest')
            | None => None
            end
      end
  end

(** One or more values separated by commas, then the closing bracket. *)
with elements (fuel : nat) (s : list ascii) : option (list pyval * list ascii) :=
  match fuel with
  | O => None
  | Datatypes.S fuel' =>
      match value fuel' s with
      | Some (v, rest) =>
          match skip_ws rest with
          | c :: rest' =>
              if Ascii.eqb c "]" then Some ([v], rest')
              else if Ascii.eqb c "," then
                match elements fuel' (skip_ws rest') with
                | Some (l, rest'') => Some (v :: l, rest'')
                | None => None
                end
              else None
          | [] => None
          end
      | None => None
      end
  end

(** One or more [key: value] pairs separated by commas, then the closing
    brace; a later pair overwrites an earlier one with the same key. *)
with members (fuel : nat) (acc : gmap string pyval) (s : list ascii)
  : option (gmap string pyval * list ascii) :=
  match fuel with
  | O => None
  | Datatypes.S fuel' =>
      match s with
      | q :: rest =>
          if Ascii.eqb q dquote then
            match text rest with
            | Some (key, rest1) =>
                match skip_ws rest1 with
                | colon :: rest2 =>
                    if Ascii.eqb colon ":" then
                      match value fuel' (skip_ws rest2) with
                      | Some (v, rest3) =>
                          let acc' := <[key := v]> acc in
                          match skip_ws rest3 with
                          | c :: rest4 =>
                              if Ascii.eqb c "}" then Some (acc', rest4)
                              else if Ascii.eqb c "," then
                                members fuel' acc' (skip_ws rest4)
                              else None
                          | [] => None
                          end
                      | None => None
                      end
                    else None
                | [] => None
                end
            | None => None
            end
          else None
      | [] => None
      end
  end.

Definition loads (s : string) : result pyval :=
  let input := list_ascii_of_string s in
  match value (Datatypes.S (length input)) (skip_ws input) with
  | Some (v, rest) =>
      match skip_ws rest with
      | [] => Ok v
      | _ :: _ => Raise (PyError "ValueError" "Extra data")
      end
  | None => Raise (PyError "ValueError" "No JSON object could be decoded")
  end.

End Json.

(** The hash of text of CPython 2.7 on a 64-bit build, with hash
    randomization off (its default). *)
Definition wrap64 (x : Z) : Z := (x + 2 ^ 63) mod 2 ^ 64 - 2 ^ 63.

Definition py27_hash (s : string) : Z :=
  match s with
  | EmptyString => 0
  | String c _ =>
      let codes := map (fun ch => Z.of_nat (nat_of_ascii ch)) (list_ascii_of_string s) in
      let x := fold_left (fun x ch => Z.lxor (wrap64 (1000003 * x)) ch) codes
                         (Z.shiftl (Z.of_nat (nat_of_ascii c)) 7) in
      let x := Z.lxor x (Z.of_nat (String.length s)) in
      if x =? -1 then -2 else x
  end.

Definition py27 : Runtime := {|
  py_hash := py27_hash;
  json_loads := Json.loads;
  py_repr := fun _ => "[...]";
|}.

(** Constants of an array whose names hold 31 characters. *)
Definition array_constants : Constants := {|
  MAX_NAME_LENGTH := 31;
  AVAILABLE_FEATURE_STATUS := [1; 2];
  SUPPORT_CLONE_PAIR_VERSION := "V600R003C00";
|}.

(** Writes a text with each apostrophe turned into a double quote. *)
Fixpoint with_quotes (s : string) : string :=
  match s with
  | EmptyString => EmptyString
  | String c rest =>
      String (if Ascii.eqb c "'" then Json.dquote else c) (with_quotes rest)
  end.

(** A client that knows the objects of [ids] by name and reports [info]. *)
Definition client_of (ids : gmap string pyval) (info : gmap string string)
  : Client := {|
  get_lun_id_by_name := fun _ name => Ok (dict_get ids name);
  get_snapshot_id_by_name := fun _ name => Ok (dict_get ids name);
  get_host_id_by_name := fun _ name => Ok (dict_get ids name);
  get_array_info := fun _ => Ok info;
|}.

(** ** Sample objects *)

Definition sample_volume_id : string := "21ec2020-3aea-4069-a2dd-08002b30309d".

(** An identifier of forty characters without a dash. *)
Definition undashed_id : string := "0123456789012345678901234567890123456789".

Definition short_host_name : string := "ubuntu-compute-01".

Definition long_host_name : string :=
  "compute-node-0123456789.rack42.region-one.example.org".

Definition sample_wwn : string := "6643e8c1004c5f6723e9f454003a8f11".

(** A volume in the current format: [provider_location] holds a JSON
    object. *)
Definition sample_volume : Volume := {|
  volume_is_object := true;
  volume_id := sample_volume_id;
  volume_provider_location :=
    Some (with_quotes
      "{'huawei_lun_id': '11', 'huawei_lun_wwn': '6643e8c1004c5f6723e9f454003a8f11'}");
  volume_metadata := ∅;
  volume_volume_metadata := None;
  volume_admin_metadata := None;
  volume_volume_admin_metadata := None;
|}.

Definition sample_lun_metadata : gmap string pyval :=
  <["huawei_lun_id" := VStr "11"]> (<["huawei_lun_wwn" := VStr sample_wwn]> ∅).

Definition sample_snapshot_id : string := "a4b56d2e-7f3c-4e1a-9b8d-5c6e7f8a9b0c".

(** A snapshot whose record holds the array-side id 5. *)
Definition sample_snapshot : Snapshot := {|
  snapshot_is_object := true;
  snapshot_id := sample_snapshot_id;
  snapshot_provider_location := Some (with_quotes "{'huawei_snapshot_id': '5'}");
  snapshot_metadata := ∅;
  snapshot_snapshot_metadata := None;
|}.

Definition sample_snapshot_metadata : gmap string pyval :=
  <["huawei_snapshot_id" := VStr "5"]> ∅.

(** A snapshot without a record of its array-side id. *)
Definition bare_snapshot : Snapshot := {|
  snapshot_is_object := true;
  snapshot_id := sample_snapshot_id;
  snapshot_provider_location := None;
  snapshot_metadata := ∅;
  snapshot_snapshot_metadata := None;
|}.

(** An array that knows no object. *)
Definition empty_client : Client := client_of ∅ ∅.

(** An array that knows the sample volume under its old-scheme name only,
    as LUN 27. *)
Definition old_name_client : Client :=
  client_of {[ "21ec2020-6250957293015627386" := VStr "27" ]} ∅.

(** An array that knows the sample snapshot under its new-scheme name, as
    snapshot 7. *)
Definition renumbered_client : Client :=
  client_of {[ "a4b56d2e-8a6d3565145c5ee7ff374b" := VStr "7" ]} ∅.

(** A volume in the legacy format: [provider_location] holds the bare LUN
    id, the WWN is in the admin metadata, and the user metadata has an
    empty ['hypermetro_id']. *)
Definition legacy_volume : Volume := {|
  volume_is_object := true;
  volume_id := sample_volume_id;
  volume_provider_location := Some "11";
  volume_metadata := {[ "hypermetro_id" := EmptyString ]};
  volume_volume_metadata := None;
  volume_admin_metadata := Some {[ "huawei_lun_wwn" := sample_wwn ]};
  volume_volume_admin_metadata := None;
|}.

(** A legacy volume read from database rows, in a hypermetro pair. *)
Definition legacy_row_volume : Volume := {|
  volume_is_object := false;
  volume_id := sample_volume_id;
  volume_provider_location := Some "11";
  volume_metadata := ∅;
  volume_volume_metadata :=
    Some [("huawei_sn", "2102350BVB10F2000020"); ("hypermetro_id", "3")];
  volume_admin_metadata := None;
  volume_volume_admin_metadata := Some [("huawei_lun_wwn", sample_wwn)];
|}.

Definition sample_feature_status : gmap string pyval :=
  {[ "SmartTier" := VInt 1; "SmartThin" := VInt 3; "HyperMetro" := VInt 0 ]}.

(** Arrays of two firmware versions. *)
Definition old_array_client : Client :=
  client_of ∅ {[ "PRODUCTVERSION" := "V300R006C20" ]}.

Definition new_array_client : Client :=
  client_of ∅ {[ "PRODUCTVERSION" := "V600R003C00" ]}.


(** The polled function says no twice, then fails. *)
Definition failing_polls : list poll :=
  [ Poll (Ok (VBool false)) (2003 # 2); Poll (Ok VNone) (2005 # 2);
    Poll (Raise (PyError "IOError" "connection reset")) (2007 # 2);
    Poll (Ok (VBool true)) (2009 # 2) ].

(** The polled function keeps saying no. *)
Definition idle_polls : list poll :=
  [ Poll (Ok (VBool false)) (2003 # 2); Poll (Ok (VBool false)) (2013 # 2);
    Poll (Ok (VBool false)) (2023 # 2); Poll (Ok (VBool false)) (2033 # 2) ].

(** ** The snapshot chain as the specification words it *)

Section SpecResolution.
Context `{Constants} `{Runtime}.

(** The chain of [get_volume_lun_id] with the snapshot accessors put in:
    the new name, then the old name, then the id of the metadata record. *)
Definition spec_get_snapshot_id (client : Client) (snapshot : Snapshot)
  : M (pyval * pyval) :=
  metadata <- lift (get_snapshot_metadata snapshot) ;;
  let name := encode_name (snapshot_id snapshot) in
  snapshot_id' <- request (GetSnapshotIdByName name)
                          (fun tr => get_snapshot_id_by_name client tr name) ;;
  snapshot_id' <- (if negb (truthy snapshot_id') then
                     let name := old_encode_name (snapshot_id snapshot) in
                     request (GetSnapshotIdByName name)
                             (fun tr => get_snapshot_id_by_name client tr name)
                   else ret snapshot_id') ;;
  let snapshot_id' :=
    if negb (truthy snapshot_id') then dict_get metadata "huawei_snapshot_id"
    else snapshot_id' in
  ret (snapshot_id', dict_get metadata "huawei_snapshot_wwn").

End SpecResolution.

(** ** Sizes, connectors, serialization and extra specs *)

(** [units.Gi] of [oslo_utils]: one GiB in bytes. *)
Definition Gi : Z := 1073741824.

(** What [/] does on two integers: the quotient rounded down in Python 2,
    the nearest float in Python 3. *)
Inductive division :=
  | IntegerDivision
  | TrueDivision.

(** The float nearest to the integer [n], ties going to the even
    significand of 53 bits; the value is again an integer. *)
Definition round_to_float (n : Z) : Z :=
  let a := Z.abs n in
  let e := Z.log2 a - 52 in
  if e <=? 0 then n
  else
    let m := a / 2 ^ e in
    let r := a mod 2 ^ e in
    let half := 2 ^ (e - 1) in
    let m' := if (half <? r) || ((r =? half) && Z.odd m) then m + 1 else m in
    Z.sgn n * (m' * 2 ^ e).

(** [a / b] for [b] dividing [a], as it is in this file: the exact quotient
    under integer division; under true division the float nearest to it, or
    [OverflowError] when that is beyond the largest float. *)
Definition divide (d : division) (a b : Z) : result Z :=
  match d with
  | IntegerDivision => Ok (a / b)
  | TrueDivision =>
      let q := round_to_float (a / b) in
      if 2 ^ 1024 <=? Z.abs q
      then Raise (PyError "OverflowError" "integer division result too large for a float")
      else Ok q
  end.

(** The argument is [int(volume.size)]; the result is the number returned,
    an integer or a float with an integer value. *)
Definition get_volume_size (d : division) (size : Z) : result Z :=
  match divide d Gi 512 with
  | Raise e => Raise e
  | Ok volume_size =>
      if negb (size =? 0) then divide d (size * Gi) 512 else Ok volume_size
  end.

(** [c.lower()] on the code points below 256: the letters A to Z and the
    accented capitals, the multiplication sign apart, move up by 32. *)
Definition lower_char (c : ascii) : ascii :=
  let n := nat_of_ascii c in
  if ((65 <=? n) && (n <=? 90))%nat
     || ((192 <=? n) && (n <=? 222) && negb (n =? 215))%nat
  then ascii_of_nat (n + 32) else c.

(** [x.lower()] *)
Fixpoint lower (x : string) : string :=
  match x with
  | EmptyString => EmptyString
  | String c rest => String (lower_char c) (lower rest)
  end.

(** [wwns] is [None] or a list; the result is [None] when the function ends
    without [return]. *)
Definition convert_connector_wwns (wwns : option (list string))
  : option (list string) :=
  match wwns with
  | Some (w :: ws) => Some (map lower (w :: ws))
  | Some [] | None => None
  end.

(** [json.dumps], the other service taken from the [json] library. *)
Class Serializer := {
  json_dumps : pyval -> string;
}.

(** [to_string], on the dict of its keyword arguments. *)
Definition to_string `{Serializer} (kwargs : gmap string pyval) : string :=
  if negb (bool_decide (size kwargs = 0%nat)) then json_dumps (VDict kwargs)
  else EmptyString.

(** [v == s] for a text [s]. *)
Definition py_eq_str (v : pyval) (s : string) : bool :=
  match v with
  | VStr t => String.eqb t s
  | _ => false
  end.

Definition workload_type_reason : string :=
  "WorkloadType name is None, please set huawei_application_type:applicationname in extra specs.".

(** [opts[key]] raises [KeyError] on a missing key; [InvalidInput] is
    recorded by its class and reason. The dict returned is [opts] itself,
    updated in place. *)
Definition get_apply_type_id (opts : gmap string pyval)
  : result (gmap string pyval) :=
  match opts !! "huawei_application_type" with
  | None => Raise (KeyError "huawei_application_type")
  | Some application_type =>
      if py_eq_str application_type "true" then
        match opts !! "applicationname" with
        | None => Raise (KeyError "applicationname")
        | Some applicationname =>
            if negb (truthy applicationname) then
              Raise (PyError "InvalidInput" workload_type_reason)
            else Ok (<["application_type" := applicationname]> opts)
        end
      else Ok (<["application_type" := VNone]> opts)
  end.

(** ** Predicates used in the statements *)

(** A lower-case hexadecimal digit. *)
Definition is_hex_digit (c : ascii) : bool :=
  let n := nat_of_ascii c in
  (((48 <=? n) && (n <=? 57)) || ((97 <=? n) && (n <=? 102)))%nat.

(** The polled function returned a false value in this poll. *)
Definition says_no (p : poll) : Prop :=
  exists res, poll_outcome p = Ok res /\ truthy res = false.

(** ** More sample objects *)

(** A writer of mappings of plain text (no quote, backslash, control or
    non-ASCII character) and integers, as [json.dumps] writes them up to the
    order of the keys. *)
Definition dumps_scalar (v : pyval) : string :=
  match v with
  | VStr s => String Json.dquote (s +:+ String Json.dquote EmptyString)
  | VInt n => text_of_int n
  | VBool true => "true"
  | VBool false => "false"
  | _ => "null"
  end.

Fixpoint dumps_items (items : list (string * pyval)) : string :=
  match items with
  | [] => EmptyString
  | [(k, v)] => dumps_scalar (VStr k) +:+ ": " +:+ dumps_scalar v
  | (k, v) :: rest =>
      dumps_scalar (VStr k) +:+ ": " +:+ dumps_scalar v +:+ ", " +:+ dumps_items rest
  end.

Definition flat_dumps : Serializer := {|
  json_dumps := fun v =>
    match v with
    | VDict d => "{" +:+ dumps_items (map_to_list d) +:+ "}"
    | _ => dumps_scalar v
    end;
|}.

(** A volume whose [provider_location] was written by [to_string]. *)
Definition written_volume : Volume := {|
  volume_is_object := true;
  volume_id := sample_volume_id;
  volume_provider_location := Some (@to_string flat_dumps sample_lun_metadata);
  volume_metadata := ∅;
  volume_volume_metadata := None;
  volume_admin_metadata := None;
  volume_volume_admin_metadata := None;
|}.

(** A volume whose [provider_location] is not JSON. *)
Definition garbled_volume : Volume := {|
  volume_is_object := true;
  volume_id := sample_volume_id;
  volume_provider_location := Some "{11";
  volume_metadata := ∅;
  volume_volume_metadata := None;
  volume_admin_metadata := None;
  volume_volume_admin_metadata := None;
|}.

Definition garbled_snapshot : Snapshot := {|
  snapshot_is_object := true;
  snapshot_id := sample_snapshot_id;
  snapshot_provider_location := Some "{11";
  snapshot_metadata := ∅;
  snapshot_snapshot_metadata := None;
|}.

(** A legacy snapshot read from database rows. *)
Definition legacy_snapshot : Snapshot := {|
  snapshot_is_object := false;
  snapshot_id := sample_snapshot_id;
  snapshot_provider_location := Some "5";
  snapshot_metadata := ∅;
  snapshot_snapshot_metadata := Some [("huawei_snapshot_wwn", sample_wwn)];
|}.

(** Database rows with a key that occurs twice. *)
Definition repeated_rows_volume : Volume := {|
  volume_is_object := false;
  volume_id := sample_volume_id;
  volume_provider_location := None;
  volume_metadata := ∅;
  volume_volume_metadata :=
    Some [("huawei_sn", "old"); ("hypermetro_id", "3"); ("huawei_sn", "new")];
  volume_admin_metadata := None;
  volume_volume_admin_metadata := None;
|}.

(** An array without a version in its info. *)
Definition unversioned_client : Client := client_of ∅ ∅.

Definition workload_opts : gmap string pyval :=
  {[ "huawei_application_type" := VStr "true";
     "applicationname" := VStr "Oracle_OLTP"; "thin" := VBool true ]}.


(** An array that answers the old-scheme name of the sample volume with
    the number 0. *)
Definition zero_id_client : Client :=
  client_of {[ "21ec2020-6250957293015627386" := VInt 0 ]} ∅.

(** A runtime whose hash gives opposite values to two texts. *)
Definition mirror_hash : Runtime := {|
  py_hash := fun s => if String.eqb s "vol-a" then 42 else -42;
  json_loads := Json.loads;
  py_repr := fun _ => "[...]";
|}.

(** Extra specs that ask for a workload type without naming it. *)
Definition nameless_opts : gmap string pyval :=
  {[ "huawei_application_type" := VStr "true";
     "applicationname" := VStr EmptyString ]}.

(** * Properties *)

(** ** Strings and digests *)

Lemma length_append (s1 s2 : string) :
  String.length (s1 +:+ s2) = (String.length s1 + String.length s2)%nat.
Proof. induction s1 as [|c s1 IH]; simpl; [reflexivity | now rewrite IH]. Qed.

Lemma append_cons (c : ascii) (s1 s2 : string) :
  String c s1 +:+ s2 = String c (s1 +:+ s2).
Proof. reflexivity. Qed.

Lemma append_assoc (s1 s2 s3 : string) :
  (s1 +:+ s2) +:+ s3 = s1 +:+ (s2 +:+ s3).
Proof.
  induction s1 as [|c s1 IH]; [reflexivity|].
  rewrite !append_cons. now rewrite IH.
Qed.

Lemma length_substring0 (n : nat) (s : string) :
  String.length (substring 0 n s) = Nat.min n (String.length s).
Proof.
  revert n; induction s as [|c s IH]; intros [|n]; simpl; try reflexivity.
  now rewrite IH.
Qed.

Lemma prefix_append (p s : string) : String.prefix p (p +:+ s) = true.
Proof.
  induction p as [|c p IH]; simpl.
  - now destruct s.
  - destruct (ascii_dec c c); [exact IH | congruence].
Qed.

Lemma prefix_substring0 (n : nat) (s : string) :
  String.prefix (substring 0 n s) s = true.
Proof.
  revert n; induction s as [|c s IH]; intros [|n]; simpl; try reflexivity.
  destruct (ascii_dec c c); [apply IH | congruence].
Qed.

Lemma slice_to_length (s : string) (stop : Z) :
  Z.of_nat (String.length (slice_to s stop)) =
  if stop <? 0 then Z.max 0 (Z.of_nat (String.length s) + stop)
  else Z.min stop (Z.of_nat (String.length s)).
Proof.
  unfold slice_to. rewrite length_substring0.
  destruct (stop <? 0) eqn:E; [apply Z.ltb_lt in E | apply Z.ltb_ge in E]; lia.
Qed.

Lemma slice_to_prefix (s : string) (stop : Z) :
  String.prefix (slice_to s stop) s = true.
Proof. apply prefix_substring0. Qed.

Lemma hex_of_bytes_length (bs : list Z) :
  String.length (MD5.hex_of_bytes bs) = (2 * length bs)%nat.
Proof. induction bs as [|b bs IH]; simpl; [reflexivity | rewrite IH; lia]. Qed.

Lemma digest_length (msg : list Z) : length (MD5.digest msg) = 16%nat.
Proof. reflexivity. Qed.

(** A hex digest has 32 characters, whatever the text. *)
Lemma md5_hexdigest_length (s : string) :
  String.length (md5_hexdigest s) = 32%nat.
Proof.
  unfold md5_hexdigest, MD5.hexdigest.
  now rewrite hex_of_bytes_length, digest_length.
Qed.

(** The digests agree with the reference values of the algorithm, on texts
    of less than one block, of two blocks, and with a two-byte character. *)

Example md5_empty : md5_hexdigest EmptyString = "d41d8cd98f00b204e9800998ecf8427e".
Proof. vm_compute. reflexivity. Qed.

Example md5_abc : md5_hexdigest "abc" = "900150983cd24fb0d6963f7d28e17f72".
Proof. vm_compute. reflexivity. Qed.

Example md5_message_digest :
  md5_hexdigest "message digest" = "f96b697d7cb7938d525a2f31aaf161d0".
Proof. vm_compute. reflexivity. Qed.

Example md5_two_blocks :
  md5_hexdigest "aaaaaaaaaaaaaaaaaaaaaaaaaaaaaaaaaaaaaaaaaaaaaaaaaaaaaaaa"
  = "3b0c8ac703f828b04c6c197006d17218".
Proof. vm_compute. reflexivity. Qed.

Example md5_eighty :
  md5_hexdigest "01234567890123456789012345678901234567890123456789012345678901234567890123456789"
  = "0faef1f4cb01d560d59016a2d5e91da6".
Proof. vm_compute. reflexivity. Qed.

Example md5_latin1 :
  md5_hexdigest (String (ascii_of_nat 99) (String (ascii_of_nat 97)
                (String (ascii_of_nat 102) (String (ascii_of_nat 233) EmptyString))))
  = "07117fe4a1ebd544965dc19573183da2".
Proof. vm_compute. reflexivity. Qed.

Lemma split_head_prefix (s : string) :
  String.prefix (split_head s) s = true.
Proof.
  induction s as [|c s IH]; simpl; [reflexivity|].
  destruct (Ascii.eqb c "-"); simpl; [reflexivity|].
  destruct (ascii_dec c c); [exact IH | congruence].
Qed.

(** ** Name encoders *)

Section EncoderFacts.
Context `{Constants}.

(** The prefix kept by [encode_name]: the text before the first dash, and
    a dash. *)
Lemma encode_name_unfold (id : string) :
  encode_name id =
  (split_head id +:+ "-") +:+
  slice_to (md5_hexdigest id)
           (MAX_NAME_LENGTH - Z.of_nat (String.length (split_head id +:+ "-"))).
Proof. reflexivity. Qed.

Lemma prefix_length_pos (id : string) :
  1 <= Z.of_nat (String.length (split_head id +:+ "-")).
Proof. rewrite length_append. simpl. lia. Qed.

Lemma encode_name_length (id : string) :
  Z.of_nat (String.length (encode_name id)) =
  let lp := Z.of_nat (String.length (split_head id +:+ "-")) in
  lp + (if MAX_NAME_LENGTH - lp <? 0 then Z.max 0 (32 + (MAX_NAME_LENGTH - lp))
        else Z.min (MAX_NAME_LENGTH - lp) 32).
Proof.
  rewrite encode_name_unfold, length_append, Nat2Z.inj_add, slice_to_length.
  rewrite md5_hexdigest_length. reflexivity.
Qed.

(** C3, as amended. The encoded name fits in [MAX_NAME_LENGTH] exactly when
    the prefix (the text before the first dash, and the dash) does: the
    digest is cut to the room the prefix leaves, the prefix is never cut. *)
Theorem encode_name_bounded_iff (id : string) :
  Z.of_nat (String.length (encode_name id)) <= MAX_NAME_LENGTH <->
  Z.of_nat (String.length (split_head id +:+ "-")) <= MAX_NAME_LENGTH.
Proof.
  rewrite encode_name_length. cbv zeta.
  set (lp := Z.of_nat (String.length (split_head id +:+ "-"))).
  destruct (MAX_NAME_LENGTH - lp <? 0) eqn:E;
    [apply Z.ltb_lt in E | apply Z.ltb_ge in E]; lia.
Qed.

(** C4. When the prefix is shorter than [MAX_NAME_LENGTH] (and the limit is
    within the 32 digits of a digest), the encoded name is the prefix
    followed by the first [MAX_NAME_LENGTH - len(prefix)] digits of the MD5
    hex digest of the identifier; it starts with the prefix, has exactly
    [MAX_NAME_LENGTH] characters, and equal identifiers give equal names. *)
Theorem encode_name_prefix_digest (id : string) :
  let prefix := split_head id +:+ "-" in
  MAX_NAME_LENGTH <= 32 ->
  Z.of_nat (String.length prefix) < MAX_NAME_LENGTH ->
  encode_name id =
    prefix +:+ substring 0 (Z.to_nat (MAX_NAME_LENGTH - Z.of_nat (String.length prefix)))
                           (md5_hexdigest id)
  /\ String.prefix (split_head id) (encode_name id) = true
  /\ String.prefix prefix (encode_name id) = true
  /\ Z.of_nat (String.length (encode_name id)) = MAX_NAME_LENGTH
  /\ (forall id', id' = id -> encode_name id' = encode_name id).
Proof.
  intros prefix Hmax Hlt.
  assert (Hform : encode_name id =
    prefix +:+ substring 0 (Z.to_nat (MAX_NAME_LENGTH - Z.of_nat (String.length prefix)))
                           (md5_hexdigest id)).
  { rewrite encode_name_unfold. fold prefix. f_equal. unfold slice_to.
    rewrite md5_hexdigest_length.
    destruct (MAX_NAME_LENGTH - Z.of_nat (String.length prefix) <? 0) eqn:E;
      [apply Z.ltb_lt in E; lia | apply Z.ltb_ge in E].
    f_equal. pose proof (prefix_length_pos id). fold prefix in H0. lia. }
  split; [exact Hform|].
  split.
  { rewrite encode_name_unfold. rewrite append_assoc.
    apply prefix_append. }
  split; [rewrite Hform; apply prefix_append|].
  split.
  { rewrite encode_name_length. cbv zeta. fold prefix.
    destruct (MAX_NAME_LENGTH - Z.of_nat (String.length prefix) <? 0) eqn:E;
      [apply Z.ltb_lt in E | apply Z.ltb_ge in E]; lia. }
  intros id' ->. reflexivity.
Qed.

(** C5. [encode_host_name] returns a name of at most [MAX_NAME_LENGTH]
    characters unchanged, the empty name included; a longer name becomes the
    first [MAX_NAME_LENGTH] digits of its MD5 hex digest, of length exactly
    [MAX_NAME_LENGTH] (the limit being within the 32 digits of a digest). *)
Theorem encode_host_name_identity_or_digest (name : string) :
  (Z.of_nat (String.length name) <= MAX_NAME_LENGTH ->
   encode_host_name name = name)
  /\ encode_host_name EmptyString = EmptyString
  /\ (0 <= MAX_NAME_LENGTH <= 32 ->
      MAX_NAME_LENGTH < Z.of_nat (String.length name) ->
      encode_host_name name =
        substring 0 (Z.to_nat MAX_NAME_LENGTH) (md5_hexdigest name)
      /\ String.prefix (encode_host_name name) (md5_hexdigest name) = true
      /\ Z.of_nat (String.length (encode_host_name name)) = MAX_NAME_LENGTH).
Proof.
  split; [|split].
  - intros Hle. unfold encode_host_name.
    destruct (MAX_NAME_LENGTH <? Z.of_nat (String.length name)) eqn:E;
      [apply Z.ltb_lt in E; lia|].
    now rewrite andb_false_r.
  - reflexivity.
  - intros Hmax Hgt. unfold encode_host_name.
    assert (Hne : String.eqb name EmptyString = false).
    { destruct name; [simpl in Hgt; lia | reflexivity]. }
    rewrite Hne. apply Z.ltb_lt in Hgt. rewrite Hgt. simpl negb. cbv iota beta zeta.
    simpl andb. cbv iota.
    split; [|split].
    + unfold slice_to. rewrite md5_hexdigest_length.
      destruct (MAX_NAME_LENGTH <? 0) eqn:E;
        [apply Z.ltb_lt in E; lia | f_equal; lia].
    + apply slice_to_prefix.
    + rewrite slice_to_length, md5_hexdigest_length.
      destruct (MAX_NAME_LENGTH <? 0) eqn:E;
        [apply Z.ltb_lt in E; lia | lia].
Qed.

End EncoderFacts.

Lemma split_head_repeat (n : nat) :
  String.length (split_head (string_of_list_ascii (repeat "a"%char n))) = n.
Proof. induction n as [|n IH]; [reflexivity|]. cbn. cbn in IH. now rewrite IH. Qed.

(** No value of the limit rescues the unconditional bound: for every
    [MAX_NAME_LENGTH] some identifier is encoded to a longer name. *)
Lemma encode_name_unbounded `{Constants} :
  exists id, MAX_NAME_LENGTH < Z.of_nat (String.length (encode_name id)).
Proof.
  exists (string_of_list_ascii (repeat "a"%char (Z.to_nat MAX_NAME_LENGTH))).
  rewrite encode_name_length, length_append, split_head_repeat. cbn.
  destruct (_ <? 0) eqn:E; [apply Z.ltb_lt in E | apply Z.ltb_ge in E]; lia.
Qed.

(** C3, counterexample: with a limit of 31 characters, an identifier of
    forty characters without a dash is encoded to 63 characters. *)
Lemma encode_name_exceeds_limit :
  Z.of_nat (String.length (@encode_name array_constants undashed_id)) = 63
  /\ ~ Z.of_nat (String.length (@encode_name array_constants undashed_id))
        <= @MAX_NAME_LENGTH array_constants.
Proof. split; [vm_compute; reflexivity | vm_compute; intros Hle; apply Hle; reflexivity]. Qed.

(** Witness of C3 as amended, on a volume identifier. *)
Lemma encode_name_bounded_iff_witness :
  Z.of_nat (String.length (@encode_name array_constants sample_volume_id))
    <= @MAX_NAME_LENGTH array_constants.
Proof.
  apply (@encode_name_bounded_iff array_constants sample_volume_id).
  vm_compute. intros Hgt; discriminate Hgt.
Defined.

(** Witness of C4. *)
Lemma encode_name_prefix_digest_witness :
  @encode_name array_constants sample_volume_id = "21ec2020-5be7e169a27c5cbe9a4fec"
  /\ Z.of_nat (String.length (@encode_name array_constants sample_volume_id)) = 31.
Proof.
  destruct (@encode_name_prefix_digest array_constants sample_volume_id)
    as (Hform & _ & _ & Hlen & _).
  - vm_compute. intros Hgt; discriminate Hgt.
  - vm_compute. reflexivity.
  - split; [rewrite Hform; vm_compute; reflexivity | exact Hlen].
Defined.

(** Witness of C5. *)
Lemma encode_host_name_identity_or_digest_witness :
  @encode_host_name array_constants short_host_name = short_host_name
  /\ Z.of_nat (String.length (@encode_host_name array_constants long_host_name)) = 31.
Proof.
  split.
  - apply (@encode_host_name_identity_or_digest array_constants short_host_name).
    vm_compute. intros Hgt; discriminate Hgt.
  - apply (@encode_host_name_identity_or_digest array_constants long_host_name).
    + vm_compute. split; intros Hgt; discriminate Hgt.
    + vm_compute. reflexivity.
Defined.

(** ** Resolution chains *)

Ltac run_chain :=
  unfold run, bind, lift, request, ret; cbn [app fst snd].

Section ResolutionFacts.
Context `{Constants} `{Runtime}.

(** The chain of [get_volume_lun_id] for a volume whose LUN metadata is at
    hand and a client whose lookups return. *)
Lemma get_volume_lun_id_chain (client : Client) (volume : Volume)
    (metadata : gmap string pyval) :
  get_lun_metadata volume = Ok metadata ->
  let new_name := encode_name (volume_id volume) in
  let old_name := old_encode_name (volume_id volume) in
  let first := get_lun_id_by_name client [] new_name in
  let second := get_lun_id_by_name client [GetLunIdByName new_name] old_name in
  let wwn := dict_get metadata "huawei_lun_wwn" in
  (forall x, first = Ok x -> truthy x = true ->
     run (get_volume_lun_id client volume) =
       (Ok (x, wwn), [GetLunIdByName new_name]))
  /\ (forall x y, first = Ok x -> truthy x = false ->
       second = Ok y -> truthy y = true ->
     run (get_volume_lun_id client volume) =
       (Ok (y, wwn), [GetLunIdByName new_name; GetLunIdByName old_name]))
  /\ (forall x y, first = Ok x -> truthy x = false ->
       second = Ok y -> truthy y = false ->
     run (get_volume_lun_id client volume) =
       (Ok (dict_get metadata "huawei_lun_id", wwn),
        [GetLunIdByName new_name; GetLunIdByName old_name]))
  /\ (forall lun_id w tr,
     run (get_volume_lun_id client volume) = (Ok (lun_id, w), tr) ->
     w = wwn /\ exists rest, tr = GetLunIdByName new_name :: rest)
  /\ (forall X, first = Ok VNone -> second = Ok X -> truthy X = true ->
     (run (get_volume_lun_id client volume)).1 = Ok (X, wwn))
  /\ (forall Y, first = Ok VNone -> second = Ok VNone ->
     metadata !! "huawei_lun_id" = Some Y ->
     (run (get_volume_lun_id client volume)).1 = Ok (Y, wwn)).
Proof.
  intros Hmd new_name old_name first second wwn.
  assert (Hfound : forall x, first = Ok x -> truthy x = true ->
     run (get_volume_lun_id client volume) =
       (Ok (x, wwn), [GetLunIdByName new_name])).
  { intros x Hx Ht. unfold get_volume_lun_id. run_chain. rewrite Hmd.
    fold new_name. fold first. rewrite Hx. cbn. rewrite Ht. cbn. rewrite Ht.
    reflexivity. }
  assert (Hold : forall x y, first = Ok x -> truthy x = false -> second = Ok y ->
     run (get_volume_lun_id client volume) =
       (Ok (if negb (truthy y) then dict_get metadata "huawei_lun_id" else y, wwn),
        [GetLunIdByName new_name; GetLunIdByName old_name])).
  { intros x y Hx Ht Hy. unfold get_volume_lun_id. run_chain. rewrite Hmd.
    fold new_name. fold first. rewrite Hx. cbn. rewrite Ht. cbn.
    fold old_name. fold second. rewrite Hy. reflexivity. }
  assert (Hany : forall lun_id w tr,
     run (get_volume_lun_id client volume) = (Ok (lun_id, w), tr) ->
     w = wwn /\ exists rest, tr = GetLunIdByName new_name :: rest).
  { intros lun_id w tr. unfold get_volume_lun_id. run_chain. rewrite Hmd.
    fold new_name. fold first. destruct first as [x|e]; cbn; [|discriminate].
    destruct (truthy x); cbn.
    - intros [= _ <- <-]. eauto.
    - fold old_name.
      destruct (get_lun_id_by_name _ _ old_name); cbn; [|discriminate].
      intros [= _ <- <-]. eauto. }
  split; [exact Hfound|].
  split; [intros x y Hx Ht Hy Hty; rewrite (Hold x y Hx Ht Hy), Hty; reflexivity|].
  split; [intros x y Hx Ht Hy Hty; rewrite (Hold x y Hx Ht Hy), Hty; reflexivity|].
  split; [exact Hany|].
  split.
  - intros X Hx Hy Ht. rewrite (Hold VNone X Hx eq_refl Hy), Ht. reflexivity.
  - intros Y Hx Hy HY. rewrite (Hold VNone VNone Hx eq_refl Hy). cbn.
    unfold dict_get at 1. rewrite HY. reflexivity.
Qed.

(** The chain of [get_snapshot_id] for a snapshot whose metadata record is
    at hand and a client whose lookups return. *)
Lemma get_snapshot_id_chain (client : Client) (snapshot : Snapshot)
    (metadata : gmap string pyval) :
  get_snapshot_metadata snapshot = Ok metadata ->
  let stored := dict_get metadata "huawei_snapshot_id" in
  let new_name := encode_name (snapshot_id snapshot) in
  let old_name := old_encode_name (snapshot_id snapshot) in
  let first := get_snapshot_id_by_name client [] new_name in
  let second :=
    get_snapshot_id_by_name client [GetSnapshotIdByName new_name] old_name in
  let wwn := dict_get metadata "huawei_snapshot_wwn" in
  (truthy stored = true ->
     run (get_snapshot_id client snapshot) = (Ok (stored, wwn), []))
  /\ (forall x, truthy stored = false -> first = Ok x -> truthy x = true ->
     run (get_snapshot_id client snapshot) =
       (Ok (x, wwn), [GetSnapshotIdByName new_name]))
  /\ (forall x y, truthy stored = false -> first = Ok x -> truthy x = false ->
       second = Ok y ->
     run (get_snapshot_id client snapshot) =
       (Ok (y, wwn),
        [GetSnapshotIdByName new_name; GetSnapshotIdByName old_name])).
Proof.
  intros Hmd stored new_name old_name first second wwn.
  split; [|split].
  - intros Hs. unfold get_snapshot_id. run_chain. rewrite Hmd.
    fold stored. rewrite Hs. cbn. rewrite Hs. reflexivity.
  - intros x Hs Hx Ht. unfold get_snapshot_id. run_chain. rewrite Hmd.
    fold stored. rewrite Hs. cbn. fold new_name. fold first. rewrite Hx.
    rewrite Ht. reflexivity.
  - intros x y Hs Hx Ht Hy. unfold get_snapshot_id. run_chain. rewrite Hmd.
    fold stored. rewrite Hs. cbn. fold new_name. fold first. rewrite Hx.
    rewrite Ht. cbn. fold old_name. fold second. rewrite Hy. reflexivity.
Qed.

(** C6. When [encode_host_name] gives the host name back unchanged,
    [get_host_id] returns what the client answers for that name and sends
    no other request. When the name was re-encoded, the old-encoding name is
    looked up as well exactly when the first lookup gave no id. *)
Theorem get_host_id_short_circuit (client : Client) (host_name : string) :
  let encoded_name := encode_host_name host_name in
  let old_name := old_encode_host_name host_name in
  let first := get_host_id_by_name client [] encoded_name in
  (encoded_name = host_name ->
     run (get_host_id client host_name) =
       (get_host_id_by_name client [] host_name, [GetHostIdByName host_name]))
  /\ (forall x, encoded_name <> host_name -> first = Ok x -> truthy x = true ->
     run (get_host_id client host_name) =
       (Ok x, [GetHostIdByName encoded_name]))
  /\ (forall x, encoded_name <> host_name -> first = Ok x -> truthy x = false ->
     run (get_host_id client host_name) =
       (get_host_id_by_name client [GetHostIdByName encoded_name] old_name,
        [GetHostIdByName encoded_name; GetHostIdByName old_name]))
  /\ (forall r tr, run (get_host_id client host_name) = (r, tr) ->
     length tr = 2%nat ->
     encoded_name <> host_name /\ exists x, first = Ok x /\ truthy x = false).
Proof.
  intros encoded_name old_name first.
  split; [|split; [|split]].
  - intros Heq. unfold get_host_id. run_chain. fold encoded_name.
    rewrite Heq, String.eqb_refl.
    destruct (get_host_id_by_name client [] host_name); reflexivity.
  - intros x Hne Hx Ht. unfold get_host_id. run_chain. fold encoded_name.
    apply String.eqb_neq in Hne. rewrite Hne. fold first. rewrite Hx, Ht.
    reflexivity.
  - intros x Hne Hx Ht. unfold get_host_id. run_chain. fold encoded_name.
    apply String.eqb_neq in Hne. rewrite Hne. fold first. rewrite Hx, Ht. cbn.
    fold old_name.
    destruct (get_host_id_by_name client _ old_name); reflexivity.
  - intros r tr. unfold get_host_id. run_chain. fold encoded_name. fold first.
    destruct (String.eqb encoded_name host_name) eqn:Heq.
    + destruct first; intros [= _ <-]; discriminate.
    + apply String.eqb_neq in Heq.
      destruct first as [x|e]; [|intros [= _ <-]; discriminate].
      destruct (truthy x) eqn:Ht; cbn.
      * intros [= _ <-]; discriminate.
      * intros _ _. eauto.
Qed.

(** C1, as amended. For every volume and every client: when the LUN
    metadata cannot be read (the text of [provider_location] is rejected by
    [json.loads]), [get_volume_lun_id] raises that error and sends no
    request. Otherwise it asks the client for the new-scheme name first;
    only when that gives no id (a false value) does it ask for the
    old-scheme name; only when that gives no id either does it take
    ['huawei_lun_id'] from the metadata. An exception raised by a lookup is
    raised and ends the chain. The WWN returned is the metadata's
    ['huawei_lun_wwn'] in every case. *)
Theorem get_volume_lun_id_resolution (client : Client) (volume : Volume) :
  let new_name := encode_name (volume_id volume) in
  let old_name := old_encode_name (volume_id volume) in
  let first := get_lun_id_by_name client [] new_name in
  let second := get_lun_id_by_name client [GetLunIdByName new_name] old_name in
  (forall e, get_lun_metadata volume = Raise e ->
     run (get_volume_lun_id client volume) = (Raise e, []))
  /\ (forall metadata, get_lun_metadata volume = Ok metadata ->
      let wwn := dict_get metadata "huawei_lun_wwn" in
      (forall e, first = Raise e ->
         run (get_volume_lun_id client volume) =
           (Raise e, [GetLunIdByName new_name]))
      /\ (forall x, first = Ok x -> truthy x = true ->
         run (get_volume_lun_id client volume) =
           (Ok (x, wwn), [GetLunIdByName new_name]))
      /\ (forall x e, first = Ok x -> truthy x = false -> second = Raise e ->
         run (get_volume_lun_id client volume) =
           (Raise e, [GetLunIdByName new_name; GetLunIdByName old_name]))
      /\ (forall x y, first = Ok x -> truthy x = false ->
           second = Ok y -> truthy y = true ->
         run (get_volume_lun_id client volume) =
           (Ok (y, wwn), [GetLunIdByName new_name; GetLunIdByName old_name]))
      /\ (forall x y, first = Ok x -> truthy x = false ->
           second = Ok y -> truthy y = false ->
         run (get_volume_lun_id client volume) =
           (Ok (dict_get metadata "huawei_lun_id", wwn),
            [GetLunIdByName new_name; GetLunIdByName old_name]))
      /\ (forall lun_id w tr,
         run (get_volume_lun_id client volume) = (Ok (lun_id, w), tr) ->
         w = wwn /\ exists rest, tr = GetLunIdByName new_name :: rest)
      /\ (forall X, first = Ok VNone -> second = Ok X -> truthy X = true ->
         (run (get_volume_lun_id client volume)).1 = Ok (X, wwn))
      /\ (forall Y, first = Ok VNone -> second = Ok VNone ->
         metadata !! "huawei_lun_id" = Some Y ->
         (run (get_volume_lun_id client volume)).1 = Ok (Y, wwn))).
Proof.
  intros new_name old_name first second. split.
  - intros e Hmd. unfold get_volume_lun_id. run_chain. now rewrite Hmd.
  - intros metadata Hmd wwn.
    destruct (get_volume_lun_id_chain client volume metadata Hmd)
      as (Hfound & Holdname & Hmeta & Hany & HX & HY).
    split.
    { intros e He. unfold get_volume_lun_id. run_chain. rewrite Hmd.
      fold new_name. fold first. now rewrite He. }
    split; [exact Hfound|]. split.
    { intros x e Hx Ht He. unfold get_volume_lun_id. run_chain. rewrite Hmd.
      fold new_name. fold first. rewrite Hx. cbn. rewrite Ht. cbn.
      fold old_name. fold second. now rewrite He. }
    split; [exact Holdname|]. split; [exact Hmeta|].
    split; [exact Hany|]. split; [exact HX | exact HY].
Qed.

(** C2, as amended. For every snapshot and every client: when the metadata
    record cannot be read (the text of [provider_location] is rejected by
    [json.loads]), [get_snapshot_id] raises that error and sends no request.
    Otherwise it takes the array id of the record first and, when it has
    one, asks the client nothing; only without it does it ask for the
    new-scheme name, and then for the old-scheme name when that gives no
    id; the result is then what the last lookup gave. An exception raised by
    a lookup is raised and ends the chain. The WWN is the record's
    ['huawei_snapshot_wwn']. *)
Theorem get_snapshot_id_resolution (client : Client) (snapshot : Snapshot) :
  let new_name := encode_name (snapshot_id snapshot) in
  let old_name := old_encode_name (snapshot_id snapshot) in
  let first := get_snapshot_id_by_name client [] new_name in
  let second :=
    get_snapshot_id_by_name client [GetSnapshotIdByName new_name] old_name in
  (forall e, get_snapshot_metadata snapshot = Raise e ->
     run (get_snapshot_id client snapshot) = (Raise e, []))
  /\ (forall metadata, get_snapshot_metadata snapshot = Ok metadata ->
      let stored := dict_get metadata "huawei_snapshot_id" in
      let wwn := dict_get metadata "huawei_snapshot_wwn" in
      (truthy stored = true ->
         run (get_snapshot_id client snapshot) = (Ok (stored, wwn), []))
      /\ (forall e, truthy stored = false -> first = Raise e ->
         run (get_snapshot_id client snapshot) =
           (Raise e, [GetSnapshotIdByName new_name]))
      /\ (forall x, truthy stored = false -> first = Ok x -> truthy x = true ->
         run (get_snapshot_id client snapshot) =
           (Ok (x, wwn), [GetSnapshotIdByName new_name]))
      /\ (forall x y, truthy stored = false -> first = Ok x -> truthy x = false ->
           second = Ok y ->
         run (get_snapshot_id client snapshot) =
           (Ok (y, wwn),
            [GetSnapshotIdByName new_name; GetSnapshotIdByName old_name]))
      /\ (forall x e, truthy stored = false -> first = Ok x -> truthy x = false ->
           second = Raise e ->
         run (get_snapshot_id client snapshot) =
           (Raise e,
            [GetSnapshotIdByName new_name; GetSnapshotIdByName old_name]))).
Proof.
  intros new_name old_name first second. split.
  - intros e Hmd. unfold get_snapshot_id. run_chain. now rewrite Hmd.
  - intros metadata Hmd stored wwn.
    destruct (get_snapshot_id_chain client snapshot metadata Hmd)
      as (Hstored & Hnew & Hold).
    split; [exact Hstored|]. split.
    { intros e Hs He. unfold get_snapshot_id. run_chain. rewrite Hmd.
      fold stored. rewrite Hs. cbn. fold new_name. fold first. now rewrite He. }
    split; [exact Hnew|]. split; [exact Hold|].
    intros x e Hs Hx Ht He. unfold get_snapshot_id. run_chain. rewrite Hmd.
    fold stored. rewrite Hs. cbn. fold new_name. fold first. rewrite Hx.
    rewrite Ht. cbn. fold old_name. fold second. now rewrite He.
Qed.

End ResolutionFacts.

(** C1, counterexample. The text of [provider_location] is not JSON; the
    array answers not-found for the new-scheme name and 27 for the
    old-scheme name, yet nothing is resolved: the call raises and no lookup
    is made. And an array that answers the old-scheme name with the number
    0, a false value, is passed over for the id of the metadata. *)
Lemma get_volume_lun_id_not_for_every_volume :
  get_lun_id_by_name old_name_client []
    (@encode_name array_constants sample_volume_id) = Ok VNone
  /\ get_lun_id_by_name old_name_client
       [GetLunIdByName (@encode_name array_constants sample_volume_id)]
       (@old_encode_name py27 sample_volume_id) = Ok (VStr "27")
  /\ run (@get_volume_lun_id array_constants py27 old_name_client garbled_volume) =
       (Raise (PyError "ValueError" "No JSON object could be decoded"), [])
  /\ get_lun_id_by_name zero_id_client
       [GetLunIdByName (@encode_name array_constants sample_volume_id)]
       (@old_encode_name py27 sample_volume_id) = Ok (VInt 0)
  /\ (run (@get_volume_lun_id array_constants py27 zero_id_client sample_volume)).1 =
       Ok (VStr "11", VStr sample_wwn).
Proof. repeat split; vm_compute; reflexivity. Qed.

(** Witness of C1 as amended: a volume found under its old-scheme name
    only, a volume the array does not know by name, and a volume whose
    metadata cannot be read. *)
Lemma get_volume_lun_id_resolution_witness :
  @get_lun_metadata py27 sample_volume = Ok sample_lun_metadata
  /\ run (@get_volume_lun_id array_constants py27 old_name_client sample_volume) =
       (Ok (VStr "27", VStr sample_wwn),
        [GetLunIdByName "21ec2020-5be7e169a27c5cbe9a4fec";
         GetLunIdByName "21ec2020-6250957293015627386"])
  /\ (run (@get_volume_lun_id array_constants py27 empty_client sample_volume)).1 =
       Ok (VStr "11", VStr sample_wwn)
  /\ run (@get_volume_lun_id array_constants py27 old_name_client garbled_volume) =
       (Raise (PyError "ValueError" "No JSON object could be decoded"), []).
Proof.
  assert (Hmd : @get_lun_metadata py27 sample_volume = Ok sample_lun_metadata)
    by (vm_compute; reflexivity).
  split; [exact Hmd|]. split; [|split].
  - destruct (@get_volume_lun_id_resolution array_constants py27 old_name_client
                sample_volume) as (_ & Hok).
    destruct (Hok sample_lun_metadata Hmd) as (_ & _ & _ & Hold & _).
    etransitivity; [apply (Hold VNone (VStr "27")); vm_compute; reflexivity|].
    vm_compute; reflexivity.
  - destruct (@get_volume_lun_id_resolution array_constants py27 empty_client
                sample_volume) as (_ & Hok).
    destruct (Hok sample_lun_metadata Hmd) as (_ & _ & _ & _ & _ & _ & _ & Hmeta).
    etransitivity; [apply (Hmeta (VStr "11")); vm_compute; reflexivity|].
    vm_compute; reflexivity.
  - destruct (@get_volume_lun_id_resolution array_constants py27 old_name_client
                garbled_volume) as (Hraise & _).
    apply Hraise. vm_compute; reflexivity.
Defined.

(** C2, counterexample: the record of the snapshot holds id 5 and the array
    knows its new-scheme name as id 7. The chain worded after the volume
    chain asks the array and answers 7; [get_snapshot_id] answers 5 and asks
    nothing. *)
Lemma get_snapshot_id_not_volume_chain :
  run (@spec_get_snapshot_id array_constants py27 renumbered_client sample_snapshot) =
    (Ok (VStr "7", VNone), [GetSnapshotIdByName "a4b56d2e-8a6d3565145c5ee7ff374b"])
  /\ run (@get_snapshot_id array_constants py27 renumbered_client sample_snapshot) =
    (Ok (VStr "5", VNone), [])
  /\ run (@get_snapshot_id array_constants py27 renumbered_client sample_snapshot) <>
     run (@spec_get_snapshot_id array_constants py27 renumbered_client sample_snapshot).
Proof.
  split; [vm_compute; reflexivity|].
  split; [vm_compute; reflexivity|].
  vm_compute. intros Heq. discriminate Heq.
Qed.

(** Witness of C2 as amended: the recorded id wins; without a record the
    new-scheme name is asked for; a record that cannot be read ends the
    call. *)
Lemma get_snapshot_id_resolution_witness :
  @get_snapshot_metadata py27 sample_snapshot = Ok sample_snapshot_metadata
  /\ run (@get_snapshot_id array_constants py27 renumbered_client sample_snapshot) =
       (Ok (VStr "5", VNone), [])
  /\ run (@get_snapshot_id array_constants py27 renumbered_client bare_snapshot) =
       (Ok (VStr "7", VNone), [GetSnapshotIdByName "a4b56d2e-8a6d3565145c5ee7ff374b"])
  /\ run (@get_snapshot_id array_constants py27 renumbered_client garbled_snapshot) =
       (Raise (PyError "ValueError" "No JSON object could be decoded"), []).
Proof.
  assert (Hmd : @get_snapshot_metadata py27 sample_snapshot = Ok sample_snapshot_metadata)
    by (vm_compute; reflexivity).
  split; [exact Hmd|]. split; [|split].
  - destruct (@get_snapshot_id_resolution array_constants py27 renumbered_client
                sample_snapshot) as (_ & Hok).
    destruct (Hok sample_snapshot_metadata Hmd) as (Hstored & _).
    etransitivity; [apply Hstored; vm_compute; reflexivity|].
    vm_compute; reflexivity.
  - destruct (@get_snapshot_id_resolution array_constants py27 renumbered_client
                bare_snapshot) as (_ & Hok).
    destruct (Hok ∅ eq_refl) as (_ & _ & Hnew & _).
    etransitivity; [apply (Hnew (VStr "7")); vm_compute; reflexivity|].
    vm_compute; reflexivity.
  - destruct (@get_snapshot_id_resolution array_constants py27 renumbered_client
                garbled_snapshot) as (Hraise & _).
    apply Hraise. vm_compute; reflexivity.
Defined.

(** Witness of C6: a short host name is looked up once, as it is; a long
    one is looked up under its digest, then under its old encoding. *)
Lemma get_host_id_short_circuit_witness :
  run (@get_host_id array_constants py27 empty_client short_host_name) =
    (Ok VNone, [GetHostIdByName short_host_name])
  /\ run (@get_host_id array_constants py27 empty_client long_host_name) =
    (Ok VNone, [GetHostIdByName "0d9b503b2b21846bd92b03aee8db989";
                GetHostIdByName "8455584397105601287"]).
Proof.
  split.
  - destruct (@get_host_id_short_circuit array_constants py27 empty_client
                short_host_name) as (Hsame & _).
    etransitivity; [apply Hsame; vm_compute; reflexivity|].
    vm_compute; reflexivity.
  - destruct (@get_host_id_short_circuit array_constants py27 empty_client
                long_host_name) as (_ & _ & Hold & _).
    etransitivity;
      [apply (Hold VNone); [vm_compute; intros Heq; discriminate Heq
                           | vm_compute; reflexivity | reflexivity]|].
    vm_compute; reflexivity.
Defined.

(** ** Feature gates *)

Section FeatureFacts.
Context `{Constants}.

Lemma py_in_int (n : Z) (codes : list Z) :
  py_in (VInt n) codes = true <-> n ∈ codes.
Proof.
  unfold py_in. rewrite existsb_exists. split.
  - intros (m & Hin & Heq). cbn in Heq. apply Z.eqb_eq in Heq. subst m.
    now apply list_elem_of_In.
  - intros Hin. exists n. split; [now apply list_elem_of_In | apply Z.eqb_refl].
Qed.

(** C7. [check_feature_available] is true exactly when the status of some
    requested feature, as [feature_status.get] gives it, is in
    [AVAILABLE_FEATURE_STATUS]; it is false for no feature and when no
    status matches. *)
Theorem check_feature_available_iff (feature_status : gmap string pyval)
    (features : list string) :
  (check_feature_available feature_status features = true <->
   exists f, f ∈ features /\
             py_in (dict_get feature_status f) AVAILABLE_FEATURE_STATUS = true)
  /\ check_feature_available feature_status [] = false
  /\ ((forall f, f ∈ features ->
          py_in (dict_get feature_status f) AVAILABLE_FEATURE_STATUS = false) ->
      check_feature_available feature_status features = false).
Proof.
  assert (Hiff : forall fs,
    check_feature_available feature_status fs = true <->
    exists f, f ∈ fs /\
              py_in (dict_get feature_status f) AVAILABLE_FEATURE_STATUS = true).
  { induction fs as [|f fs IH]; cbn.
    - split; [discriminate | intros (f & Hin & _); inversion Hin].
    - destruct (py_in (dict_get feature_status f) AVAILABLE_FEATURE_STATUS) eqn:E.
      + split; [intros _; exists f; split; [constructor | exact E] | reflexivity].
      + rewrite IH. split.
        * intros (g & Hin & Hg). exists g. split; [now constructor | exact Hg].
        * intros (g & Hin & Hg). apply elem_of_cons in Hin as [-> | Hin];
            [congruence | eauto]. }
  split; [apply Hiff | split; [reflexivity|]].
  intros Hnone.
  destruct (check_feature_available feature_status features) eqn:E; [|reflexivity].
  apply Hiff in E as (f & Hin & Hf). rewrite (Hnone f Hin) in Hf. discriminate.
Qed.

Lemma leb_false_of_ltb (s1 s2 : string) :
  String.ltb s1 s2 = true -> String.leb s2 s1 = false.
Proof.
  unfold String.ltb, String.leb. rewrite (String.compare_antisym s2 s1).
  destruct (String.compare s1 s2); cbn; congruence.
Qed.

(** C10. When the array reports a PRODUCTVERSION below
    [SUPPORT_CLONE_PAIR_VERSION] in the order of text,
    [is_support_clone_pair] returns [None], not [False]; it returns [True]
    exactly when the version is at or above the threshold. *)
Theorem is_support_clone_pair_none_below (client : Client)
    (array_info : gmap string string) (version_info : string) :
  get_array_info client [] = Ok array_info ->
  array_info !! "PRODUCTVERSION" = Some version_info ->
  (String.ltb version_info SUPPORT_CLONE_PAIR_VERSION = true ->
     run (is_support_clone_pair client) = (Ok VNone, [GetArrayInfo]))
  /\ (run (is_support_clone_pair client) = (Ok (VBool true), [GetArrayInfo]) <->
      String.leb SUPPORT_CLONE_PAIR_VERSION version_info = true)
  /\ (run (is_support_clone_pair client)).1 <> Ok (VBool false).
Proof.
  intros Hinfo Hversion.
  assert (Hrun : run (is_support_clone_pair client) =
    (Ok (if String.leb SUPPORT_CLONE_PAIR_VERSION version_info
         then VBool true else VNone), [GetArrayInfo])).
  { unfold is_support_clone_pair. run_chain. rewrite Hinfo. cbn.
    rewrite Hversion. cbn.
    destruct (String.leb SUPPORT_CLONE_PAIR_VERSION version_info); reflexivity. }
  rewrite Hrun. split; [|split].
  - intros Hlt. now rewrite (leb_false_of_ltb _ _ Hlt).
  - destruct (String.leb SUPPORT_CLONE_PAIR_VERSION version_info);
      split; congruence.
  - cbn. destruct (String.leb SUPPORT_CLONE_PAIR_VERSION version_info); congruence.
Qed.

End FeatureFacts.

(** Witness of C7. *)
Lemma check_feature_available_iff_witness :
  @check_feature_available array_constants sample_feature_status
     ["SmartThin"; "SmartTier"] = true
  /\ @check_feature_available array_constants sample_feature_status
     ["SmartThin"; "HyperMetro"; "SmartCache"] = false.
Proof.
  split.
  - apply (@check_feature_available_iff array_constants sample_feature_status
             ["SmartThin"; "SmartTier"]).
    exists "SmartTier". split; [set_solver | vm_compute; reflexivity].
  - apply (@check_feature_available_iff array_constants sample_feature_status
             ["SmartThin"; "HyperMetro"; "SmartCache"]).
    intros f Hin.
    repeat (apply elem_of_cons in Hin as [-> | Hin]; [vm_compute; reflexivity|]).
    inversion Hin.
Defined.

(** Witness of C10. *)
Lemma is_support_clone_pair_none_below_witness :
  run (@is_support_clone_pair array_constants old_array_client) =
    (Ok VNone, [GetArrayInfo])
  /\ run (@is_support_clone_pair array_constants new_array_client) =
    (Ok (VBool true), [GetArrayInfo]).
Proof.
  split.
  - apply (@is_support_clone_pair_none_below array_constants old_array_client
             {[ "PRODUCTVERSION" := "V300R006C20" ]} "V300R006C20");
      vm_compute; reflexivity.
  - apply (@is_support_clone_pair_none_below array_constants new_array_client
             {[ "PRODUCTVERSION" := "V600R003C00" ]} "V600R003C00");
      vm_compute; reflexivity.
Defined.

(** ** Metadata extraction *)

Section MetadataFacts.
Context `{Runtime}.

(** The mapping rebuilt for a volume of the legacy format. *)
Lemma get_lun_metadata_legacy (volume : Volume) (c : ascii) (loc : string)
    (info : pyval) :
  volume_provider_location volume = Some (String c loc) ->
  json_loads (String c loc) = Ok info ->
  (forall d, info <> VDict d) ->
  get_lun_metadata volume =
    Ok (<["huawei_lun_id" := VStr (text_type info)]>
         (<["huawei_lun_wwn" :=
              str_dict_get (get_admin_metadata volume) "huawei_lun_wwn"]>
           (<["huawei_sn" := str_dict_get (get_volume_metadata volume) "huawei_sn"]>
             (<["hypermetro" :=
                  VBool (truthy (str_dict_get (get_volume_metadata volume)
                                              "hypermetro_id"))]> ∅)))).
Proof.
  intros Hloc Hjson Hscalar. unfold get_lun_metadata. rewrite Hloc, Hjson.
  destruct info; try reflexivity. now destruct (Hscalar d).
Qed.

Lemma truthy_str_dict_get (d : gmap string string) (key : string) :
  truthy (str_dict_get d key) = true <->
  exists v, d !! key = Some v /\ v <> EmptyString.
Proof.
  unfold str_dict_get. destruct (d !! key) as [v|]; cbn.
  - rewrite negb_true_iff, String.eqb_neq. split.
    + intros Hne. exists v. split; [reflexivity | exact Hne].
    + intros (v' & [= <-] & Hne). exact Hne.
  - split; [discriminate | intros (v & Hv & _); discriminate].
Qed.

(** C9, as amended. For a volume with a non-empty [provider_location],
    [get_lun_metadata] returns the decoded value when it is a mapping; when
    it is anything else (the legacy format, a bare array-side id) it returns
    a mapping of four entries: ['huawei_lun_id'] is the text form of the
    decoded value, ['huawei_lun_wwn'] is read from the admin metadata,
    ['huawei_sn'] from the user metadata, and ['hypermetro'] is true exactly
    when the user metadata has a non-empty ['hypermetro_id'] value. For an
    empty or unset [provider_location] it returns an empty mapping. *)
Theorem get_lun_metadata_formats (volume : Volume) :
  (volume_provider_location volume = None \/
   volume_provider_location volume = Some EmptyString ->
   get_lun_metadata volume = Ok ∅)
  /\ (forall loc info,
       volume_provider_location volume = Some loc -> loc <> EmptyString ->
       json_loads loc = Ok (VDict info) ->
       get_lun_metadata volume = Ok info)
  /\ (forall loc info,
       volume_provider_location volume = Some loc -> loc <> EmptyString ->
       json_loads loc = Ok info -> (forall d, info <> VDict d) ->
       exists metadata,
         get_lun_metadata volume = Ok metadata
         /\ metadata !! "huawei_lun_id" = Some (VStr (text_type info))
         /\ metadata !! "huawei_lun_wwn" =
              Some (str_dict_get (get_admin_metadata volume) "huawei_lun_wwn")
         /\ metadata !! "huawei_sn" =
              Some (str_dict_get (get_volume_metadata volume) "huawei_sn")
         /\ (exists flag, metadata !! "hypermetro" = Some (VBool flag)
              /\ (flag = true <->
                  exists v, get_volume_metadata volume !! "hypermetro_id" = Some v
                            /\ v <> EmptyString))
         /\ size metadata = 4%nat).
Proof.
  split; [|split].
  - unfold get_lun_metadata. intros [-> | ->]; reflexivity.
  - intros loc info Hloc Hne Hjson. unfold get_lun_metadata. rewrite Hloc.
    destruct loc as [|c loc]; [congruence|]. now rewrite Hjson.
  - intros loc info Hloc Hne Hjson Hscalar.
    destruct loc as [|c loc]; [congruence|].
    eexists. split; [apply (get_lun_metadata_legacy _ _ _ _ Hloc Hjson Hscalar)|].
    split; [reflexivity|]. split; [reflexivity|]. split; [reflexivity|].
    split; [|reflexivity].
    eexists. split; [reflexivity|]. apply truthy_str_dict_get.
Qed.

End MetadataFacts.

(** C9, counterexample: a legacy volume whose user metadata contains a
    ['hypermetro_id'] entry, with an empty value, gets a false
    ['hypermetro'] flag. *)
Lemma get_lun_metadata_empty_hypermetro_id :
  @json_loads py27 "11" = Ok (VInt 11)
  /\ is_Some (get_volume_metadata legacy_volume !! "hypermetro_id")
  /\ exists metadata,
       @get_lun_metadata py27 legacy_volume = Ok metadata
       /\ metadata !! "hypermetro" = Some (VBool false).
Proof.
  split; [vm_compute; reflexivity|].
  split; [exists EmptyString; vm_compute; reflexivity|].
  eexists. split; [vm_compute; reflexivity | vm_compute; reflexivity].
Qed.

(** Witness of C9 as amended: a volume of the current format, and a legacy
    volume read from database rows. *)
Lemma get_lun_metadata_formats_witness :
  @get_lun_metadata py27 sample_volume = Ok sample_lun_metadata
  /\ exists metadata,
       @get_lun_metadata py27 legacy_row_volume = Ok metadata
       /\ metadata !! "huawei_lun_id" = Some (VStr "11")
       /\ metadata !! "huawei_lun_wwn" = Some (VStr sample_wwn)
       /\ metadata !! "huawei_sn" = Some (VStr "2102350BVB10F2000020")
       /\ metadata !! "hypermetro" = Some (VBool true).
Proof.
  split.
  - destruct (@get_lun_metadata_formats py27 sample_volume) as (_ & Hdict & _).
    eapply Hdict; [reflexivity | vm_compute; intros Heq; discriminate Heq
                  | vm_compute; reflexivity].
  - destruct (@get_lun_metadata_formats py27 legacy_row_volume) as (_ & _ & Hlegacy).
    destruct (Hlegacy "11" (VInt 11))
      as (metadata & Hmd & Hid & Hwwn & Hsn & (flag & Hflag & Hiff) & _).
    + reflexivity.
    + intros Heq; discriminate Heq.
    + vm_compute; reflexivity.
    + intros d Heq; discriminate Heq.
    + exists metadata. split; [exact Hmd|].
      split; [exact Hid|]. split; [exact Hwwn|]. split; [exact Hsn|].
      rewrite Hflag. f_equal. f_equal. apply Hiff.
      exists "3". split; [vm_compute; reflexivity | intros Heq; discriminate Heq].
Defined.

(** ** Blocking poll helper *)

Lemma timeout_passed_iff (start_time timeout now : Q) :
  timeout_passed start_time timeout now = true <->
  (timeout < inject_Z (py_int now) - start_time)%Q.
Proof.
  unfold timeout_passed. rewrite negb_true_iff. split.
  - intros Hb. apply Qnot_le_lt. intros Hle.
    apply Qle_bool_iff in Hle. congruence.
  - intros Hlt. destruct (Qle_bool _ timeout) eqn:E; [|reflexivity].
    apply Qle_bool_iff in E. now apply Qlt_not_le in Hlt.
Qed.

Lemma py_int_le (now : Q) : (0 <= now)%Q -> (inject_Z (py_int now) <= now)%Q.
Proof.
  destruct now as [n d]. intros Hpos. unfold py_int.
  assert (Hnum : 0 <= n) by (unfold Qle in Hpos; cbn in Hpos; lia).
  cbn [Qnum Qden]. rewrite Z.quot_div_nonneg by lia.
  exact (Qfloor_le (n # d)).
Qed.

(** When the timeout test passes, the time elapsed since the start exceeds
    the timeout. *)
Lemma timeout_passed_elapsed (start_time timeout now : Q) :
  (0 <= now)%Q ->
  timeout_passed start_time timeout now = true ->
  (timeout < now - start_time)%Q.
Proof.
  intros Hpos Hpassed. apply timeout_passed_iff in Hpassed.
  apply py_int_le in Hpos.
  eapply Qlt_le_trans; [exact Hpassed|].
  apply Qplus_le_compat; [exact Hpos | apply Qle_refl].
Qed.

(** The test cuts the clock to whole seconds, so it can lag the elapsed
    time, by less than one second. *)
Lemma timeout_passed_after_second (start_time timeout now : Q) :
  (0 <= now)%Q ->
  (timeout + 1 <= now - start_time)%Q ->
  timeout_passed start_time timeout now = true.
Proof.
  intros Hpos Hlate. apply timeout_passed_iff.
  assert (Hfloor : (now < inject_Z (py_int now) + 1)%Q).
  { destruct now as [n d]. unfold py_int.
    assert (Hnum : 0 <= n) by (unfold Qle in Hpos; cbn in Hpos; lia).
    cbn [Qnum Qden]. rewrite Z.quot_div_nonneg by lia.
    pose proof (Qlt_floor (n # d)) as Hlt.
    rewrite inject_Z_plus in Hlt. exact Hlt. }
  lra.
Qed.







(** * Further properties of the helpers *)

(** ** Encoders *)

Lemma split_head_append_dash (s t : string) :
  split_head (split_head s +:+ String "-" t) = split_head s.
Proof.
  induction s as [|c s IH]; [reflexivity|]. cbn [split_head].
  destruct (Ascii.eqb c "-") eqn:E; [reflexivity|].
  rewrite append_cons. cbn [split_head]. rewrite E. now rewrite IH.
Qed.

Lemma text_of_int_nonneg (n : Z) :
  0 <= n -> startswith_dash (text_of_int n) = false.
Proof.
  intros Hn. unfold text_of_int. destruct n as [|p|p]; [reflexivity| |lia].
  cbn [Z.to_int NilZero.string_of_int]. now destruct (Pos.to_uint p).
Qed.

Lemma text_of_int_neg (n : Z) :
  n < 0 -> text_of_int n = String "-" (text_of_int (- n)).
Proof. intros Hn. destruct n as [|p|p]; [lia | lia | reflexivity]. Qed.

Lemma slice_digest_length_le (stop : Z) (s : string) :
  0 <= stop -> Z.of_nat (String.length (slice_to (md5_hexdigest s) stop)) <= stop.
Proof.
  intros Hstop. rewrite slice_to_length.
  destruct (stop <? 0) eqn:E; [apply Z.ltb_lt in E|]; lia.
Qed.

Section MoreEncoderFacts.
Context `{Constants} `{Runtime}.

(** X1. Both encoders keep the first segment of the identifier: the text
    before the first dash of the encoded name is the text before the first
    dash of the identifier, so names encoded from identifiers with
    different first segments differ. *)
Theorem encoders_keep_first_segment (id : string) :
  split_head (encode_name id) = split_head id
  /\ split_head (old_encode_name id) = split_head id
  /\ (forall id', encode_name id = encode_name id' -> split_head id = split_head id').
Proof.
  assert (Hnew : forall i, split_head (encode_name i) = split_head i).
  { intros i. rewrite encode_name_unfold, append_assoc.
    apply split_head_append_dash. }
  split; [apply Hnew|]. split.
  - unfold old_encode_name.
    destruct (text_of_int (py_hash id)) as [|c t] eqn:E; cbn [startswith_dash].
    + apply split_head_append_dash.
    + destruct (Ascii.eqb c "-") eqn:Ec.
      * apply Ascii.eqb_eq in Ec. subst c. apply split_head_append_dash.
      * apply split_head_append_dash.
  - intros id' Heq. rewrite <- (Hnew id), <- (Hnew id'). now rewrite Heq.
Qed.

(** X2. The old-scheme name is the first segment, a dash and the absolute
    value of the hash in decimal: the sign of a negative hash serves as the
    dash. Two identifiers with the same first segment and opposite hashes
    get the same old-scheme name. *)
Theorem old_encode_name_abs (id : string) :
  old_encode_name id =
    split_head id +:+ "-" +:+ text_of_int (Z.abs (py_hash id))
  /\ (forall id', split_head id' = split_head id ->
                  py_hash id' = - py_hash id ->
                  old_encode_name id' = old_encode_name id).
Proof.
  assert (Habs : forall i, old_encode_name i =
    split_head i +:+ "-" +:+ text_of_int (Z.abs (py_hash i))).
  { intros i. unfold old_encode_name.
    destruct (Z.neg_nonneg_cases (py_hash i)) as [Hneg | Hpos].
    - rewrite (text_of_int_neg _ Hneg). cbn [startswith_dash].
      rewrite Ascii.eqb_refl, Z.abs_neq by lia. reflexivity.
    - rewrite (text_of_int_nonneg _ Hpos), Z.abs_eq by lia. reflexivity. }
  split; [apply Habs|].
  intros id' Hseg Hhash. rewrite (Habs id), (Habs id'), Hseg, Hhash.
  now rewrite Z.abs_opp.
Qed.

(** X3. With a limit that is not negative, the encoded host name never
    exceeds [MAX_NAME_LENGTH], whatever the host name (unlike
    [encode_name], no part of the input is kept when it is too long). *)
Theorem encode_host_name_bounded (name : string) :
  0 <= MAX_NAME_LENGTH ->
  Z.of_nat (String.length (encode_host_name name)) <= MAX_NAME_LENGTH.
Proof.
  intros Hmax. unfold encode_host_name.
  destruct (String.eqb name EmptyString) eqn:Hname; cbn [negb andb].
  - apply String.eqb_eq in Hname. subst name. cbn. lia.
  - destruct (MAX_NAME_LENGTH <? Z.of_nat (String.length name)) eqn:E.
    + now apply slice_digest_length_le.
    + apply Z.ltb_ge in E. exact E.
Qed.

(** X4. With a limit that is not negative, a host name that
    [encode_host_name] gives back unchanged is given back unchanged by
    [old_encode_host_name] too: the fallback lookup that [get_host_id]
    skips would ask for the name already asked for. *)
Theorem unchanged_host_name_has_no_old_encoding (name : string) :
  0 <= MAX_NAME_LENGTH ->
  encode_host_name name = name ->
  old_encode_host_name name = name.
Proof.
  intros Hmax Hsame. unfold old_encode_host_name.
  unfold encode_host_name in Hsame.
  destruct (negb (String.eqb name EmptyString) &&
            (MAX_NAME_LENGTH <? Z.of_nat (String.length name))) eqn:E;
    [|reflexivity].
  apply andb_true_iff in E as [_ E]. apply Z.ltb_lt in E.
  pose proof (slice_digest_length_le MAX_NAME_LENGTH name Hmax) as Hle.
  rewrite Hsame in Hle. lia.
Qed.

End MoreEncoderFacts.

Lemma hex_digit_is_hex (n : Z) : is_hex_digit (MD5.hex_digit n) = true.
Proof.
  unfold MD5.hex_digit. generalize (Z.to_nat n) as k. intros k.
  do 16 (destruct k as [|k]; [reflexivity|]). now destruct k.
Qed.

Lemma hex_of_bytes_is_hex (bs : list Z) :
  Forall (fun c => is_hex_digit c = true)
         (list_ascii_of_string (MD5.hex_of_bytes bs)).
Proof.
  induction bs as [|b bs IH]; cbn [MD5.hex_of_bytes list_ascii_of_string].
  - constructor.
  - repeat constructor; [apply hex_digit_is_hex | apply hex_digit_is_hex | exact IH].
Qed.

Lemma substring0_Forall (P : ascii -> Prop) (n : nat) (s : string) :
  Forall P (list_ascii_of_string s) ->
  Forall P (list_ascii_of_string (substring 0 n s)).
Proof.
  revert n; induction s as [|c s IH]; intros [|n] Hall; cbn; try constructor.
  - now inversion Hall.
  - apply IH. now inversion Hall.
Qed.

Lemma slice_digest_is_hex (stop : Z) (s : string) :
  Forall (fun c => is_hex_digit c = true)
         (list_ascii_of_string (slice_to (md5_hexdigest s) stop)).
Proof. apply substring0_Forall, hex_of_bytes_is_hex. Qed.

(** X5. A host name longer than the limit is replaced by a name made of
    lower-case hexadecimal digits only, and the part that [encode_name]
    puts after the prefix is made of such digits only. *)
Theorem encoded_names_in_hex `{Constants} (name : string) :
  (MAX_NAME_LENGTH < Z.of_nat (String.length name) ->
   Forall (fun c => is_hex_digit c = true)
          (list_ascii_of_string (encode_host_name name)))
  /\ exists postfix,
       encode_name name = (split_head name +:+ "-") +:+ postfix
       /\ Forall (fun c => is_hex_digit c = true) (list_ascii_of_string postfix).
Proof.
  split.
  - intros Hlong. unfold encode_host_name.
    destruct (negb (String.eqb name EmptyString) &&
              (MAX_NAME_LENGTH <? Z.of_nat (String.length name))) eqn:E.
    + apply slice_digest_is_hex.
    + apply Z.ltb_lt in Hlong. rewrite Hlong, andb_true_r in E.
      apply negb_false_iff, String.eqb_eq in E. subst name. constructor.
  - eexists. split; [apply encode_name_unfold | apply slice_digest_is_hex].
Qed.

(** ** Metadata *)

Lemma dict_of_rows_snoc (rows : list (string * string)) (k v : string) :
  dict_of_rows (rows ++ [(k, v)])%list = <[k := v]> (dict_of_rows rows).
Proof. unfold dict_of_rows. now rewrite fold_left_app. Qed.

(** The value kept for a key is that of the last row with this key. *)
Lemma dict_of_rows_lookup (rows : list (string * string)) (k x : string) :
  dict_of_rows rows !! k = Some x <->
  exists pre post, rows = (pre ++ (k, x) :: post)%list /\ forall y, (k, y) ∉ post.
Proof.
  induction rows as [|[k' v'] rows IH] using rev_ind.
  - split; [intros Hl; discriminate Hl|].
    intros (pre & post & Heq & _). now destruct pre.
  - rewrite dict_of_rows_snoc, lookup_insert. destruct (decide (k' = k)) as [->|Hne].
    + split.
      * intros [= ->]. exists rows, []. split; [reflexivity|].
        intros y Hin. inversion Hin.
      * intros (pre & post & Heq & Hlast).
        destruct post as [|z post _] using rev_ind.
        -- apply app_inj_tail in Heq as [_ [= ->]]. reflexivity.
        -- rewrite app_comm_cons, app_assoc in Heq.
           apply app_inj_tail in Heq as [_ <-].
           destruct (Hlast v'). apply elem_of_app. right. constructor.
    + rewrite IH. split.
      * intros (pre & post & -> & Hlast). exists pre, (post ++ [(k', v')])%list.
        split; [now rewrite <- app_assoc|].
        intros y Hin. apply elem_of_app in Hin as [Hin | Hin];
          [now apply (Hlast y)|].
        apply list_elem_of_singleton in Hin. congruence.
      * intros (pre & post & Heq & Hlast).
        destruct post as [|z post _] using rev_ind.
        -- apply app_inj_tail in Heq as [_ [= <- _]]. congruence.
        -- rewrite app_comm_cons, app_assoc in Heq.
           apply app_inj_tail in Heq as [-> <-].
           exists pre, post. split; [reflexivity|].
           intros y Hin. apply (Hlast y), elem_of_app. now left.
Qed.

(** X6. For a volume read from database rows, the user metadata maps a key
    to the value of the last row that has this key (a later row overwrites
    an earlier one), and has no entry for a key that no row has. The same
    holds for the admin metadata rows when the volume has no
    [admin_metadata] attribute. *)
Theorem metadata_rows_last_wins (volume : Volume)
    (rows : list (string * string)) (k x : string) :
  (volume_is_object volume = false ->
   volume_volume_metadata volume = Some rows ->
   (get_volume_metadata volume !! k = Some x <->
    exists pre post, rows = (pre ++ (k, x) :: post)%list /\ forall y, (k, y) ∉ post))
  /\ (volume_admin_metadata volume = None ->
      volume_volume_admin_metadata volume = Some rows ->
      (get_admin_metadata volume !! k = Some x <->
       exists pre post, rows = (pre ++ (k, x) :: post)%list /\ forall y, (k, y) ∉ post)).
Proof.
  split.
  - intros Hrow Hrows. unfold get_volume_metadata. rewrite Hrow, Hrows.
    rewrite <- dict_of_rows_lookup. now destruct rows.
  - intros Hattr Hrows. unfold get_admin_metadata. rewrite Hattr, Hrows.
    apply dict_of_rows_lookup.
Qed.

Section MoreMetadataFacts.
Context `{Runtime}.

(** X7. For a snapshot, [get_snapshot_metadata] returns an empty mapping
    when [provider_location] is unset or empty and the decoded value when it
    is a mapping; for any other decoded value (the legacy format) it returns
    a mapping of two entries, ['huawei_snapshot_id'] as the text form of the
    value and ['huawei_snapshot_wwn'] as read from the snapshot's own
    metadata ([None] when it has none); a decoding error is raised as it
    is. *)
Theorem get_snapshot_metadata_formats (snapshot : Snapshot) :
  (snapshot_provider_location snapshot = None \/
   snapshot_provider_location snapshot = Some EmptyString ->
   get_snapshot_metadata snapshot = Ok ∅)
  /\ (forall loc info,
       snapshot_provider_location snapshot = Some loc -> loc <> EmptyString ->
       json_loads loc = Ok (VDict info) ->
       get_snapshot_metadata snapshot = Ok info)
  /\ (forall loc info,
       snapshot_provider_location snapshot = Some loc -> loc <> EmptyString ->
       json_loads loc = Ok info -> (forall d, info <> VDict d) ->
       exists metadata,
         get_snapshot_metadata snapshot = Ok metadata
         /\ metadata !! "huawei_snapshot_id" = Some (VStr (text_type info))
         /\ metadata !! "huawei_snapshot_wwn" =
              Some (str_dict_get (get_snapshot_metadata_value snapshot)
                                 "huawei_snapshot_wwn")
         /\ size metadata = 2%nat)
  /\ (forall loc e,
       snapshot_provider_location snapshot = Some loc -> loc <> EmptyString ->
       json_loads loc = Raise e ->
       get_snapshot_metadata snapshot = Raise e).
Proof.
  unfold get_snapshot_metadata. split; [|split; [|split]].
  - intros [-> | ->]; reflexivity.
  - intros loc info -> Hne Hjson. destruct loc as [|c loc]; [congruence|].
    now rewrite Hjson.
  - intros loc info -> Hne Hjson Hscalar. destruct loc as [|c loc]; [congruence|].
    rewrite Hjson. eexists. split.
    + destruct info; try reflexivity. now destruct (Hscalar d).
    + split; [reflexivity|]. split; reflexivity.
  - intros loc e -> Hne Hjson. destruct loc as [|c loc]; [congruence|].
    now rewrite Hjson.
Qed.

(** X8. What [to_string] writes, [get_lun_metadata] reads back: for a
    volume whose [provider_location] is [to_string] of a mapping, the LUN
    metadata is that mapping. This includes the empty mapping, written as
    the empty text and read back without decoding. For a mapping with
    entries it rests on [json.loads] undoing [json.dumps], whose output is
    not empty. *)
Theorem get_lun_metadata_reads_to_string `{Serializer} (volume : Volume)
    (kwargs : gmap string pyval) :
  volume_provider_location volume = Some (to_string kwargs) ->
  (size kwargs <> 0%nat ->
   json_dumps (VDict kwargs) <> EmptyString /\
   json_loads (json_dumps (VDict kwargs)) = Ok (VDict kwargs)) ->
  get_lun_metadata volume = Ok kwargs.
Proof.
  intros Hloc Hlib. unfold get_lun_metadata. rewrite Hloc. unfold to_string.
  destruct (bool_decide (size kwargs = 0%nat)) eqn:E; cbn [negb].
  - apply bool_decide_eq_true in E. apply map_size_empty_iff in E.
    now subst kwargs.
  - apply bool_decide_eq_false in E. destruct (Hlib E) as [Hne Hround].
    destruct (json_dumps (VDict kwargs)) as [|c written]; [congruence|].
    now rewrite Hround.
Qed.

End MoreMetadataFacts.

(** ** Resolution and feature gates *)

Section MoreResolutionFacts.
Context `{Constants} `{Runtime}.

(** X9. When [provider_location] holds text that [json.loads] rejects,
    [get_volume_lun_id] and [get_snapshot_id] raise the decoding error and
    send no request to the array: the object is not looked up by name, even
    if the array knows it. *)
Theorem undecodable_location_blocks_lookup (client : Client)
    (volume : Volume) (snapshot : Snapshot) (loc : string) (e : exn) :
  loc <> EmptyString ->
  json_loads loc = Raise e ->
  (volume_provider_location volume = Some loc ->
   run (get_volume_lun_id client volume) = (Raise e, []))
  /\ (snapshot_provider_location snapshot = Some loc ->
      run (get_snapshot_id client snapshot) = (Raise e, [])).
Proof.
  intros Hne Hjson. destruct loc as [|c loc]; [congruence|]. split.
  - intros Hloc. unfold get_volume_lun_id, get_lun_metadata. run_chain.
    now rewrite Hloc, Hjson.
  - intros Hloc. unfold get_snapshot_id, get_snapshot_metadata. run_chain.
    now rewrite Hloc, Hjson.
Qed.

(** X10. Whatever the client answers and however the call ends,
    [get_volume_lun_id] sends at most two requests, each a LUN lookup by
    name: the new-scheme name first, then, if at all, the old-scheme name.
    It never asks for a snapshot, a host or the array info. *)
Theorem get_volume_lun_id_requests (client : Client) (volume : Volume)
    (r : result (pyval * pyval)) (tr : list call) :
  run (get_volume_lun_id client volume) = (r, tr) ->
  tr = []
  \/ tr = [GetLunIdByName (encode_name (volume_id volume))]
  \/ tr = [GetLunIdByName (encode_name (volume_id volume));
           GetLunIdByName (old_encode_name (volume_id volume))].
Proof.
  unfold get_volume_lun_id. run_chain.
  destruct (get_lun_metadata volume) as [metadata|e]; [|intros [= _ <-]; now left].
  destruct (get_lun_id_by_name client [] _) as [x|e]; cbn;
    [|intros [= _ <-]; right; now left].
  destruct (truthy x); cbn; [intros [= _ <-]; right; now left|].
  destruct (get_lun_id_by_name client _ _); cbn; intros [= _ <-]; right; now right.
Qed.

End MoreResolutionFacts.

Section MoreFeatureFacts.
Context `{Constants}.

(** X11. [is_support_clone_pair] sends one request for the array info in
    every case. When the info has no ['PRODUCTVERSION'] it raises
    [KeyError]; when the client raises, that exception is raised. *)
Theorem is_support_clone_pair_errors (client : Client) :
  (forall array_info, get_array_info client [] = Ok array_info ->
     array_info !! "PRODUCTVERSION" = None ->
     run (is_support_clone_pair client) =
       (Raise (KeyError "PRODUCTVERSION"), [GetArrayInfo]))
  /\ (forall e, get_array_info client [] = Raise e ->
     run (is_support_clone_pair client) = (Raise e, [GetArrayInfo]))
  /\ (run (is_support_clone_pair client)).2 = [GetArrayInfo].
Proof.
  unfold is_support_clone_pair. run_chain. split; [|split].
  - intros array_info -> Hnone. cbn. now rewrite Hnone.
  - intros e ->. reflexivity.
  - destruct (get_array_info client []) as [array_info|e]; cbn; [|reflexivity].
    destruct (array_info !! "PRODUCTVERSION"); cbn; [|reflexivity].
    now destruct (String.leb _ _).
Qed.

(** X12. A feature list put together from two lists is available exactly
    when one of the two is; so the check does not depend on the order of
    the features, and adding features never turns it false. *)
Theorem check_feature_available_app (feature_status : gmap string pyval)
    (features more : list string) :
  check_feature_available feature_status (features ++ more)%list =
    check_feature_available feature_status features
    || check_feature_available feature_status more.
Proof.
  induction features as [|f features IH]; [reflexivity|].
  cbn. destruct (py_in _ _); [reflexivity | exact IH].
Qed.

End MoreFeatureFacts.

(** ** Sizes, connectors and extra specs *)

Lemma round_to_float_small (n : Z) :
  Z.abs n < 2 ^ 53 -> round_to_float n = n.
Proof.
  intros Hn. unfold round_to_float.
  destruct (Z.eq_dec n 0) as [-> | Hne]; [reflexivity|].
  assert (Hlog : Z.log2 (Z.abs n) < 53) by (apply Z.log2_lt_pow2; lia).
  destruct (Z.log2 (Z.abs n) - 52 <=? 0) eqn:E; [reflexivity|].
  apply Z.leb_gt in E. lia.
Qed.

(** A multiple of [2 ^ 21] with at most 53 further bits is a float. *)
Lemma round_to_float_sectors (size : Z) :
  Z.abs size <= 2 ^ 53 -> round_to_float (size * 2097152) = size * 2097152.
Proof.
  intros Hsize. unfold round_to_float.
  set (a := Z.abs (size * 2097152)).
  destruct (Z.log2 a - 52 <=? 0) eqn:E; [reflexivity|].
  apply Z.leb_gt in E.
  assert (Ha : a = Z.abs size * 2 ^ 21) by (unfold a; rewrite Z.abs_mul; reflexivity).
  assert (Hapos : 0 < a).
  { destruct (Z.eq_dec a 0) as [H0 | H0]; [|unfold a in *; lia].
    rewrite H0 in E. cbn in E. lia. }
  set (e := Z.log2 a - 52) in *.
  assert (He : e <= 22).
  { assert (Z.log2 a < 75); [|lia].
    apply Z.log2_lt_pow2; [exact Hapos|]. rewrite Ha.
    change (2 ^ 75) with (2 ^ 54 * 2 ^ 21). nia. }
  assert (Hr : a mod 2 ^ e = 0).
  { destruct (Z.eq_dec e 22) as [He22 | Hne22].
    - assert (Hlog : Z.log2 a = 74) by lia.
      assert (Hbig : 2 ^ 74 <= a).
      { rewrite <- Hlog. apply Z.log2_spec. exact Hapos. }
      assert (Ha' : a = 2 ^ 74).
      { rewrite Ha in *. change (2 ^ 74) with (2 ^ 53 * 2 ^ 21) in *. nia. }
      rewrite Ha', He22. reflexivity.
    - rewrite Ha. replace 21 with ((21 - e) + e) by lia.
      rewrite Z.pow_add_r by lia. rewrite Z.mul_assoc.
      apply Z_mod_mult. }
  rewrite Hr.
  assert (Hhalf : 0 < 2 ^ (e - 1)) by (apply Z.pow_pos_nonneg; lia).
  replace (2 ^ (e - 1) <? 0) with false by (symmetry; apply Z.ltb_ge; lia).
  replace (0 =? 2 ^ (e - 1)) with false by (symmetry; apply Z.eqb_neq; lia).
  cbn [orb andb].
  assert (Hdiv : a / 2 ^ e * 2 ^ e = a).
  { pose proof (Z_div_mod_eq_full a (2 ^ e)) as Hdm. lia. }
  rewrite Hdiv. unfold a. destruct (size * 2097152); cbn; lia.
Qed.

(** X13. For a size of at most [2 ^ 53] GiB in absolute value,
    [get_volume_size] is exact under both meanings of [/]: it returns the
    size times 2097152, and 512 times the result is the size in bytes; a
    size of zero is counted as one GiB. Under integer division this holds
    for every size. Under true division a larger size can be rounded:
    [2 ^ 53 + 1] GiB gives the sectors of [2 ^ 53] GiB. *)
Theorem get_volume_size_sectors (d : division) (size : Z) :
  (size <> 0 -> Z.abs size <= 2 ^ 53 ->
   get_volume_size d size = Ok (size * 2097152)
   /\ 512 * (size * 2097152) = size * 2 ^ 30)
  /\ get_volume_size d 0 = get_volume_size d 1
  /\ (size <> 0 -> get_volume_size IntegerDivision size = Ok (size * 2097152))
  /\ get_volume_size TrueDivision (2 ^ 53 + 1) = Ok (2 ^ 53 * 2097152).
Proof.
  assert (Hquot : forall n, n * Gi / 512 = n * 2097152).
  { intros n. unfold Gi. replace (n * 1073741824) with (n * 2097152 * 512) by lia.
    apply Z.div_mul. lia. }
  split; [|split; [|split]].
  - intros Hne Hsize. split; [|lia].
    apply Z.eqb_neq in Hne. unfold get_volume_size.
    destruct d; cbn [divide]; rewrite ?Hne; cbn [negb].
    + now rewrite Hquot.
    + replace (2 ^ 1024 <=? Z.abs (round_to_float (Gi / 512))) with false
        by (vm_compute; reflexivity).
      rewrite Hquot, (round_to_float_sectors _ Hsize).
      replace (2 ^ 1024 <=? Z.abs (size * 2097152)) with false; [reflexivity|].
      symmetry. apply Z.leb_gt.
      assert (Z.abs (size * 2097152) <= 2 ^ 53 * 2097152)
        by (rewrite Z.abs_mul; cbn [Z.abs]; nia).
      eapply Z.le_lt_trans; [eassumption | vm_compute; reflexivity].
  - destruct d; vm_compute; reflexivity.
  - intros Hne. apply Z.eqb_neq in Hne. unfold get_volume_size. cbn [divide].
    now rewrite Hne, Hquot.
  - vm_compute. reflexivity.
Qed.

Lemma lower_char_idem (c : ascii) : lower_char (lower_char c) = lower_char c.
Proof.
  destruct c as [[] [] [] [] [] [] [] []]; reflexivity.
Qed.

Lemma lower_idem (x : string) : lower (lower x) = lower x.
Proof.
  induction x as [|c x IH]; [reflexivity|]. cbn. now rewrite lower_char_idem, IH.
Qed.

Lemma lower_length (x : string) : String.length (lower x) = String.length x.
Proof. induction x as [|c x IH]; [reflexivity|]. cbn. now rewrite IH. Qed.

(** X14. [convert_connector_wwns] gives [None] for [None] and for an empty
    list, not an empty list. For a list with entries it gives as many WWNs,
    each of the length of the one it comes from; converting the result
    again changes nothing. *)
Theorem convert_connector_wwns_shape (wwns : option (list string)) :
  (wwns = None \/ wwns = Some [] -> convert_connector_wwns wwns = None)
  /\ (forall ws, wwns = Some ws -> ws <> [] ->
      exists converted,
        convert_connector_wwns wwns = Some converted
        /\ length converted = length ws
        /\ (forall i w, ws !! i = Some w ->
            exists w', converted !! i = Some w'
                       /\ String.length w' = String.length w))
  /\ convert_connector_wwns (convert_connector_wwns wwns) =
     convert_connector_wwns wwns.
Proof.
  split; [|split].
  - intros [-> | ->]; reflexivity.
  - intros ws -> Hne. destruct ws as [|w ws]; [congruence|].
    exists (map lower (w :: ws)). split; [reflexivity|].
    split; [apply length_map|].
    intros i v Hi. exists (lower v). split; [|apply lower_length].
    now rewrite list_lookup_fmap, Hi.
  - destruct wwns as [[|w ws]|]; try reflexivity.
    cbn. rewrite lower_idem. do 2 f_equal.
    rewrite map_map. apply map_ext. intros v. apply lower_idem.
Qed.

Lemma py_eq_str_true (v : pyval) (s : string) :
  py_eq_str v s = true <-> v = VStr s.
Proof.
  destruct v; cbn; try (split; [discriminate | intros Heq; discriminate Heq]).
  rewrite String.eqb_eq. split; [now intros -> | now intros [= ->]].
Qed.

(** X15. When [get_apply_type_id] returns, the dict returned differs from
    [opts] in ['application_type'] only. That entry is the non-empty
    ['applicationname'] when ['huawei_application_type'] is ['true'], and
    [None] otherwise. Applied to its own result, the function returns it
    unchanged. *)
Theorem get_apply_type_id_result (opts opts' : gmap string pyval) :
  get_apply_type_id opts = Ok opts' ->
  (forall key, key <> "application_type" -> opts' !! key = opts !! key)
  /\ (exists v, opts' !! "application_type" = Some v
       /\ ((opts !! "huawei_application_type" = Some (VStr "true")
            /\ opts !! "applicationname" = Some v /\ truthy v = true)
           \/ (opts !! "huawei_application_type" <> Some (VStr "true")
               /\ v = VNone)))
  /\ get_apply_type_id opts' = Ok opts'.
Proof.
  unfold get_apply_type_id.
  destruct (opts !! "huawei_application_type") as [t|] eqn:Ht; [|discriminate].
  destruct (py_eq_str t "true") eqn:Etrue.
  - apply py_eq_str_true in Etrue. subst t.
    destruct (opts !! "applicationname") as [name|] eqn:Hname; [|discriminate].
    destruct (truthy name) eqn:Htruthy; cbn [negb]; [|discriminate].
    intros [= <-]. split; [|split].
    + intros key Hkey. now rewrite lookup_insert_ne.
    + exists name. rewrite lookup_insert_eq. split; [reflexivity|].
      left. auto.
    + rewrite !lookup_insert_ne, Ht, Hname by discriminate. cbn.
      rewrite Htruthy. cbn. now rewrite insert_insert_eq.
  - intros [= <-]. split; [|split].
    + intros key Hkey. now rewrite lookup_insert_ne.
    + exists VNone. rewrite lookup_insert_eq. split; [reflexivity|].
      right. split; [|reflexivity]. intros [= ->]. discriminate Etrue.
    + rewrite lookup_insert_ne, Ht, Etrue by discriminate.
      now rewrite insert_insert_eq.
Qed.

(** X16. [get_apply_type_id] raises exactly when
    ['huawei_application_type'] is missing, or is ['true'] while
    ['applicationname'] is missing or empty. A missing key raises
    [KeyError] for that key; an empty ['applicationname'] raises
    [InvalidInput]. A type other than ['true'] never raises, whatever
    ['applicationname'] is. *)
Theorem get_apply_type_id_raises (opts : gmap string pyval) :
  (opts !! "huawei_application_type" = None ->
   get_apply_type_id opts = Raise (KeyError "huawei_application_type"))
  /\ (opts !! "huawei_application_type" = Some (VStr "true") ->
      opts !! "applicationname" = None ->
      get_apply_type_id opts = Raise (KeyError "applicationname"))
  /\ (forall name, opts !! "huawei_application_type" = Some (VStr "true") ->
      opts !! "applicationname" = Some name -> truthy name = false ->
      get_apply_type_id opts = Raise (PyError "InvalidInput" workload_type_reason))
  /\ ((exists e, get_apply_type_id opts = Raise e) <->
      opts !! "huawei_application_type" = None
      \/ (opts !! "huawei_application_type" = Some (VStr "true")
          /\ forall name, opts !! "applicationname" = Some name ->
                          truthy name = false)).
Proof.
  unfold get_apply_type_id. split; [|split; [|split]].
  - now intros ->.
  - now intros -> ->.
  - intros name -> -> Hfalsy. cbn. now rewrite Hfalsy.
  - destruct (opts !! "huawei_application_type") as [t|] eqn:Ht.
    + destruct (py_eq_str t "true") eqn:Etrue.
      * apply py_eq_str_true in Etrue. subst t.
        destruct (opts !! "applicationname") as [name|] eqn:Hname.
        -- destruct (truthy name) eqn:Htruthy; cbn [negb].
           ++ split; [intros [e He]; discriminate He|].
              intros [Hnone | [_ Hfalsy]]; [discriminate Hnone|].
              rewrite (Hfalsy name eq_refl) in Htruthy. discriminate.
           ++ split; [|eauto]. intros _. right. split; [reflexivity|].
              now intros name' [= <-].
        -- split; [|eauto]. intros _. right. split; [reflexivity|].
           intros name' Hname'. discriminate Hname'.
      * split; [intros [e He]; discriminate He|].
        intros [Hnone | [[= ->] _]]; [discriminate Hnone | discriminate Etrue].
    + split; [auto | eauto].
Qed.

(** ** Blocking poll helper *)


Lemma inner_raise_cases (func_name : string) (start_time timeout : Q) (p : poll)
    (e : exn) :
  _inner func_name start_time timeout p = InnerRaise e ->
  (exists ex, poll_outcome p = Raise ex
              /\ e = VolumeBackendAPIException (DataException ex))
  \/ (says_no p
      /\ timeout_passed start_time timeout (poll_time p) = true
      /\ e = VolumeBackendAPIException (DataMessage (timed_out_msg func_name))).
Proof.
  unfold _inner, says_no. destruct (poll_outcome p) as [res|ex].
  - destruct (truthy res) eqn:Ht; [discriminate|].
    destruct (timeout_passed _ _ _); [|discriminate].
    intros [= <-]. right. eauto.
  - intros [= <-]. left. eauto.
Qed.


(** Where a loop that ended stopped: after polls that all returned. *)
Lemma looping_call_stops (body : poll -> inner_result) (polls : list poll)
    (runs : nat) (w : wait_result) :
  looping_call body polls runs = w ->
  (forall n, w <> Blocked n) ->
  exists before p after,
    polls = (before ++ p :: after)%list
    /\ Forall (fun q => body q = InnerReturn) before
    /\ ((body p = LoopingCallDone
         /\ w = Returned (Datatypes.S (length before + runs)))
        \/ exists e, body p = InnerRaise e
                     /\ w = Raised e (Datatypes.S (length before + runs))).
Proof.
  revert runs. induction polls as [|q polls IH]; intros runs Hw Hblocked.
  - cbn in Hw. subst w. now destruct (Hblocked runs).
  - cbn in Hw. destruct (body q) eqn:Hq.
    + destruct (IH _ Hw Hblocked) as (before & p & after & -> & Hall & Hend).
      exists (q :: before), p, after. split; [reflexivity|].
      split; [now constructor|].
      cbn [length]. replace (Datatypes.S (length before) + runs)%nat
        with (length before + Datatypes.S runs)%nat by lia. exact Hend.
    + exists [], q, polls. split; [reflexivity|]. split; [constructor|].
      left. split; [exact Hq | now subst w].
    + exists [], q, polls. split; [reflexivity|]. split; [constructor|].
      right. exists e. split; [exact Hq | now subst w].
Qed.


(** X18. Every exception that leaves the wait is a
    [VolumeBackendAPIException], raised in the last run of the polled
    function: either that run raised and the exception carries what it
    raised, or that run returned a false value, the exception carries the
    timed-out message, and more than [timeout] had elapsed since the start
    (the clock not being negative). The timeout is never reported early. *)
Theorem wait_for_condition_raises_only (func_name : string) (polls : list poll)
    (interval timeout start_time : Q) (e : exn) (n : nat) :
  wait_for_condition func_name polls interval timeout start_time = Raised e n ->
  exists p, polls !! Nat.pred n = Some p
    /\ ((exists ex, poll_outcome p = Raise ex
                    /\ e = VolumeBackendAPIException (DataException ex))
        \/ (says_no p
            /\ e = VolumeBackendAPIException
                     (DataMessage ("wait_for_condition: " +:+ func_name +:+ " timed out."))
            /\ (timeout < inject_Z (py_int (poll_time p)) - start_time)%Q
            /\ ((0 <= poll_time p)%Q -> (timeout < poll_time p - start_time)%Q))).
Proof.
  intros Hraised. unfold wait_for_condition in Hraised.
  destruct (looping_call_stops _ _ _ _ Hraised) as
    (before & p & after & -> & Hall & [[_ Hn] | (e' & Hp & Hn)]);
    [intros m Hm; discriminate Hm | discriminate Hn |].
  injection Hn as -> ->. exists p. split.
  { rewrite Nat.add_0_r. cbn [Nat.pred]. now apply list_lookup_middle. }
  apply inner_raise_cases in Hp as [Hex | (Hno & Hpassed & ->)]; [now left|].
  right. split; [exact Hno|]. split; [reflexivity|]. split.
  - now apply timeout_passed_iff.
  - intros Hpos. now apply timeout_passed_elapsed.
Qed.

(** X19. A polled function that only ever returns false values cannot
    keep the caller waiting past the timeout: once a poll is made a full
    second or more after the timeout has elapsed, the wait has ended with
    the timed-out error, at that poll or before. *)
Theorem wait_for_condition_times_out (func_name : string) (polls : list poll)
    (interval timeout start_time : Q) :
  Forall says_no polls ->
  Exists (fun p => (0 <= poll_time p)%Q
                   /\ (timeout + 1 <= poll_time p - start_time)%Q) polls ->
  exists n, (1 <= n <= length polls)%nat
    /\ wait_for_condition func_name polls interval timeout start_time =
       Raised (VolumeBackendAPIException (DataMessage (timed_out_msg func_name))) n.
Proof.
  unfold wait_for_condition. intros Hno Hlate.
  assert (Hgen : forall runs, exists n, (runs < n <= runs + length polls)%nat
    /\ looping_call (_inner func_name start_time timeout) polls runs =
       Raised (VolumeBackendAPIException (DataMessage (timed_out_msg func_name))) n).
  { induction Hno as [|p polls (res & Hres & Ht) _ IH]; intros runs.
    - inversion Hlate.
    - cbn [looping_call]. unfold _inner at 1. rewrite Hres, Ht.
      destruct (timeout_passed start_time timeout (poll_time p)) eqn:Hp.
      + exists (Datatypes.S runs). split; [cbn; lia | reflexivity].
      + apply Exists_cons in Hlate as [[Hpos Hlate] | Hlate].
        * rewrite (timeout_passed_after_second _ _ _ Hpos Hlate) in Hp.
          discriminate Hp.
        * destruct (IH Hlate (Datatypes.S runs)) as (n & Hn & Hrun).
          exists n. split; [cbn; lia | exact Hrun]. }
  destruct (Hgen 0%nat) as (n & Hn & Hrun). exists n. split; [lia | exact Hrun].
Qed.

(** ** Witnesses *)

(** Witness of X1. *)
Lemma encoders_keep_first_segment_witness :
  split_head (@encode_name array_constants sample_volume_id) = "21ec2020"
  /\ split_head (@old_encode_name py27 sample_volume_id) = "21ec2020".
Proof.
  destruct (@encoders_keep_first_segment array_constants py27 sample_volume_id)
    as (Hnew & Hold & _).
  split; [rewrite Hnew | rewrite Hold]; reflexivity.
Defined.

(** Witness of X2: opposite hashes, one name. *)
Lemma old_encode_name_abs_witness :
  @old_encode_name mirror_hash "vol-b" = "vol-42"
  /\ @old_encode_name mirror_hash "vol-b" = @old_encode_name mirror_hash "vol-a".
Proof.
  destruct (@old_encode_name_abs mirror_hash "vol-a") as (_ & Hsame).
  destruct (@old_encode_name_abs mirror_hash "vol-b") as (Habs & _).
  split; [rewrite Habs; reflexivity|].
  apply Hsame; reflexivity.
Defined.

(** Witness of X3. *)
Lemma encode_host_name_bounded_witness :
  Z.of_nat (String.length (@encode_host_name array_constants long_host_name)) <= 31.
Proof.
  apply (@encode_host_name_bounded array_constants long_host_name).
  vm_compute. intros Hgt; discriminate Hgt.
Defined.

(** Witness of X4. *)
Lemma unchanged_host_name_has_no_old_encoding_witness :
  @old_encode_host_name array_constants py27 short_host_name = short_host_name.
Proof.
  apply (@unchanged_host_name_has_no_old_encoding array_constants py27 short_host_name).
  - vm_compute. intros Hgt; discriminate Hgt.
  - reflexivity.
Defined.

(** Witness of X5. *)
Lemma encoded_names_in_hex_witness :
  Forall (fun c => is_hex_digit c = true)
         (list_ascii_of_string (@encode_host_name array_constants long_host_name)).
Proof.
  apply (@encoded_names_in_hex array_constants long_host_name).
  vm_compute. reflexivity.
Defined.

(** Witness of X6: of two rows with the key ['huawei_sn'], the second is
    kept. *)
Lemma metadata_rows_last_wins_witness :
  get_volume_metadata repeated_rows_volume !! "huawei_sn" = Some "new".
Proof.
  apply (metadata_rows_last_wins repeated_rows_volume
           [("huawei_sn", "old"); ("hypermetro_id", "3"); ("huawei_sn", "new")]
           "huawei_sn" "new"); [reflexivity | reflexivity |].
  exists [("huawei_sn", "old"); ("hypermetro_id", "3")], [].
  split; [reflexivity|]. intros y Hin. inversion Hin.
Defined.

(** Witness of X7. *)
Lemma get_snapshot_metadata_formats_witness :
  exists metadata,
    @get_snapshot_metadata py27 legacy_snapshot = Ok metadata
    /\ metadata !! "huawei_snapshot_id" = Some (VStr "5")
    /\ metadata !! "huawei_snapshot_wwn" = Some (VStr sample_wwn).
Proof.
  destruct (@get_snapshot_metadata_formats py27 legacy_snapshot)
    as (_ & _ & Hlegacy & _).
  destruct (Hlegacy "5" (VInt 5)) as (metadata & Hmd & Hid & Hwwn & _).
  - reflexivity.
  - intros Heq; discriminate Heq.
  - vm_compute; reflexivity.
  - intros d Heq; discriminate Heq.
  - exists metadata. split; [exact Hmd|]. split; [exact Hid | exact Hwwn].
Defined.

(** Witness of X8. *)
Lemma get_lun_metadata_reads_to_string_witness :
  @get_lun_metadata py27 written_volume = Ok sample_lun_metadata.
Proof.
  apply (@get_lun_metadata_reads_to_string py27 flat_dumps written_volume
           sample_lun_metadata); [reflexivity|].
  intros _. split; [vm_compute; intros Heq; discriminate Heq|].
  vm_compute. reflexivity.
Defined.

(** Witness of X9. *)
Lemma undecodable_location_blocks_lookup_witness :
  run (@get_volume_lun_id array_constants py27 old_name_client garbled_volume) =
    (Raise (PyError "ValueError" "No JSON object could be decoded"), [])
  /\ run (@get_snapshot_id array_constants py27 renumbered_client garbled_snapshot) =
    (Raise (PyError "ValueError" "No JSON object could be decoded"), []).
Proof.
  split.
  - apply (@undecodable_location_blocks_lookup array_constants py27 old_name_client
             garbled_volume garbled_snapshot "{11");
      [intros Heq; discriminate Heq | vm_compute; reflexivity | reflexivity].
  - apply (@undecodable_location_blocks_lookup array_constants py27 renumbered_client
             garbled_volume garbled_snapshot "{11");
      [intros Heq; discriminate Heq | vm_compute; reflexivity | reflexivity].
Defined.

(** Witness of X10. *)
Lemma get_volume_lun_id_requests_witness :
  (run (@get_volume_lun_id array_constants py27 empty_client sample_volume)).2 = []
  \/ (run (@get_volume_lun_id array_constants py27 empty_client sample_volume)).2 =
      [GetLunIdByName (@encode_name array_constants sample_volume_id)]
  \/ (run (@get_volume_lun_id array_constants py27 empty_client sample_volume)).2 =
      [GetLunIdByName (@encode_name array_constants sample_volume_id);
       GetLunIdByName (@old_encode_name py27 sample_volume_id)].
Proof.
  apply (@get_volume_lun_id_requests array_constants py27 empty_client sample_volume
           (run (@get_volume_lun_id array_constants py27 empty_client sample_volume)).1).
  now destruct (run _).
Defined.

(** Witness of X11. *)
Lemma is_support_clone_pair_errors_witness :
  run (@is_support_clone_pair array_constants unversioned_client) =
    (Raise (KeyError "PRODUCTVERSION"), [GetArrayInfo]).
Proof.
  apply (@is_support_clone_pair_errors array_constants unversioned_client) with (array_info := ∅);
    reflexivity.
Defined.

(** Witness of X13. *)
Lemma get_volume_size_sectors_witness :
  get_volume_size TrueDivision 3 = Ok 6291456
  /\ get_volume_size IntegerDivision 3 = Ok 6291456.
Proof.
  destruct (get_volume_size_sectors TrueDivision 3) as (Hexact & _ & Hinteger & _).
  split.
  - apply Hexact.
    + intros Heq; discriminate Heq.
    + vm_compute. intros Hgt; discriminate Hgt.
  - apply Hinteger. intros Heq; discriminate Heq.
Defined.

(** Witness of X14. *)
Lemma convert_connector_wwns_shape_witness :
  exists converted,
    convert_connector_wwns (Some ["10000090FA0D6754"; "2100001B32A1C3E5"]) =
      Some converted
    /\ length converted = 2%nat.
Proof.
  destruct (convert_connector_wwns_shape
              (Some ["10000090FA0D6754"; "2100001B32A1C3E5"])) as (_ & Hsome & _).
  destruct (Hsome ["10000090FA0D6754"; "2100001B32A1C3E5"])
    as (converted & Hconv & Hlen & _).
  - reflexivity.
  - intros Heq; discriminate Heq.
  - exists converted. split; [exact Hconv | exact Hlen].
Defined.

(** Witness of X15. *)
Lemma get_apply_type_id_result_witness :
  exists opts',
    get_apply_type_id workload_opts = Ok opts'
    /\ opts' !! "thin" = Some (VBool true)
    /\ get_apply_type_id opts' = Ok opts'.
Proof.
  exists (<["application_type" := VStr "Oracle_OLTP"]> workload_opts).
  assert (Hrun : get_apply_type_id workload_opts =
                 Ok (<["application_type" := VStr "Oracle_OLTP"]> workload_opts))
    by (vm_compute; reflexivity).
  destruct (get_apply_type_id_result _ _ Hrun) as (Hframe & _ & Hagain).
  split; [exact Hrun|]. split; [|exact Hagain].
  rewrite Hframe; [vm_compute; reflexivity | intros Heq; discriminate Heq].
Defined.

(** Witness of X16. *)
Lemma get_apply_type_id_raises_witness :
  get_apply_type_id nameless_opts = Raise (PyError "InvalidInput" workload_type_reason).
Proof.
  apply (get_apply_type_id_raises nameless_opts) with (name := VStr EmptyString);
    vm_compute; reflexivity.
Defined.


(** Witness of X18. *)
Lemma wait_for_condition_raises_only_witness :
  exists p, failing_polls !! 2%nat = Some p
    /\ poll_outcome p = Raise (PyError "IOError" "connection reset").
Proof.
  destruct (wait_for_condition_raises_only "lun_ready" failing_polls 1 10 (2001 # 2)
              (VolumeBackendAPIException
                 (DataException (PyError "IOError" "connection reset"))) 3)
    as (p & Hp & Hcase); [reflexivity|].
  exists p. split; [exact Hp|].
  destruct Hcase as [(ex & Hex & [= <-]) | (_ & Heq & _)];
    [exact Hex | discriminate Heq].
Defined.

(** Witness of X19. *)
Lemma wait_for_condition_times_out_witness :
  exists n, (1 <= n <= 4)%nat
    /\ wait_for_condition "lun_ready" idle_polls 5 10 (2001 # 2) =
       Raised (VolumeBackendAPIException
                 (DataMessage "wait_for_condition: lun_ready timed out.")) n.
Proof.
  apply (wait_for_condition_times_out "lun_ready" idle_polls 5 10 (2001 # 2)).
  - repeat constructor; exists (VBool false); split; reflexivity.
  - apply Exists_cons_tl, Exists_cons_tl, Exists_cons_tl, Exists_cons_hd.
    split; unfold Qle; cbn; lia.
Defined.
